(** * umini.data.tree.cartesian.implicit: the implicit treap

    A shallow embedding of [src/umini/data/tree/cartesian/implicit.py]
    ([_TreapVertex] and [ImplicitTreap]) and the properties of its
    vertex maintenance ([push], [update]), of [split] and [merge], of the
    field registration [computable] and of [__len__] / [__bool__].

    Python objects are mutated in place; here every operation returns the
    new state of the objects it touched.  A vertex owns its two children
    (no vertex is reachable along two paths), so a vertex together with
    everything below it is a value of the inductive type [vertex]. *)

From Stdlib Require Import ZArith List String Bool Lia.
Import ListNotations.
Local Open Scope string_scope.
Local Open Scope Z_scope.

(** ** Outcomes of a Python call *)

Inductive exn : Type :=
| AttributeError
| TypeError
| ValueError
| RecursionError.

Inductive result (A : Type) : Type :=
| Ok (a : A)
| Raise (e : exn).
Arguments Ok {A} a.
Arguments Raise {A} e.

Definition bind {A B : Type} (m : result A) (k : A -> result B) : result B :=
  match m with
  | Ok a => k a
  | Raise e => Raise e
  end.

Notation "x <- m ;; k" := (bind m (fun x => k))
  (at level 61, m at next level, right associativity).
Notation "' p <- m ;; k" := (bind m (fun x => match x with p => k end))
  (at level 61, p pattern, m at next level, right associativity).

Definition raises {A : Type} (m : result A) : bool :=
  match m with
  | Ok _ => false
  | Raise _ => true
  end.

(** ** Python dicts with string keys: insertion ordered, one entry per key *)

Definition dict (A : Type) : Type := list (string * A).

Fixpoint dict_get {A : Type} (d : dict A) (k : string) : option A :=
  match d with
  | [] => None
  | (k', v) :: d' => if String.eqb k' k then Some v else dict_get d' k
  end.

Fixpoint dict_set {A : Type} (d : dict A) (k : string) (v : A) : dict A :=
  match d with
  | [] => [(k, v)]
  | (k', v') :: d' =>
      if String.eqb k' k then (k', v) :: d' else (k', v') :: dict_set d' k v
  end.

(** ** The bound of the type variable [T_co]

    [T_co = TypeVar('T_co', bound=VertexComputable, covariant=True)].
    The module [umini.data.tree.base.vertex] that declares
    [VertexComputable] is not part of the sources, so what the code asks of
    a field value is an interface: its truth value (the [x or T_co()] of
    the aggregate wrapper) and the outcome of the expression [T_co()].
    In the source [T_co] is the [TypeVar] itself, and calling a [TypeVar]
    raises [TypeError]: the instance the code is run with below has
    [T_co_call := Raise TypeError]. *)

Class VertexComputable (T : Type) : Type := {
  truthy : T -> bool;
  T_co_call : result (option T)
}.

Module _TreapVertex.

Section Vertex.
Context {T : Type} `{VertexComputable T}.

(** A field value: [None] or a [T]. *)
Definition pyval : Type := option T.

(** The registered functions, [Callable[[T_co, Optional[T_co]], Optional[T_co]]]. *)
Definition pyfun : Type := pyval -> pyval -> result pyval.

(** A [value_func] as the code uses it.  The only call of a stored
    [value_func] is [self.__func_calls[attr](self)] in [update]: one
    argument, the result dropped.  So a [value_func] is modelled by what
    that call does: it returns, for a callable that accepts a single
    argument ([def f(a, b=None)], [lambda *a: ...]), or it raises [e], as a
    function of exactly two arguments does with [TypeError].  The callable
    is taken to leave the vertex as it is. *)
Inductive value_callable : Type :=
| returns_for_self
| raises_for_self (e : exn).

(** What the dict [__func_calls] holds: the [value_func] that [__init__]
    stores under ["value"] as it is ([None] by default), or the closure
    [wrapper] that [computable] builds when [on_range] is false (it
    captures [field] and [func]). *)
Inductive func_call : Type :=
| value_func (f : option value_callable)
| func_wrapper (field : string) (func : pyfun).

(** What the dict [__lazy_calls] holds: the closure [wrapper] that
    [computable] builds when [on_range] is true. *)
Inductive lazy_call : Type :=
| lazy_wrapper (field : string) (func reverse_func : pyfun).

(** The attributes of one vertex.  [fields] holds the attributes set by
    [__setattr__(field, ...)] for registered field names other than
    ["value"]; registered field names are assumed not to be one of the
    structural attributes ([_priority], [_size], [_left], [_right], the
    two dicts). *)
Record attrs : Type := {
  value : pyval;
  _priority : Z;
  _size : Z;
  fields : dict pyval;
  __lazy_calls : dict lazy_call;
  __func_calls : dict func_call
}.

(** [Optional['_TreapVertex[T_co]']]: [None], or a vertex with its two
    child slots. *)
Inductive vertex : Type :=
| PyNone
| TreapVertex (a : attrs) (_left _right : vertex).

(** The properties [left] and [right]. *)
Definition left (o : vertex) : vertex :=
  match o with
  | PyNone => PyNone
  | TreapVertex _ l _ => l
  end.

Definition right (o : vertex) : vertex :=
  match o with
  | PyNone => PyNone
  | TreapVertex _ _ r => r
  end.

Definition set_value (a : attrs) (v : pyval) : attrs :=
  {| value := v; _priority := _priority a; _size := _size a;
     fields := fields a; __lazy_calls := __lazy_calls a;
     __func_calls := __func_calls a |}.

Definition set_size (a : attrs) (n : Z) : attrs :=
  {| value := value a; _priority := _priority a; _size := n;
     fields := fields a; __lazy_calls := __lazy_calls a;
     __func_calls := __func_calls a |}.

Definition set_fields (a : attrs) (f : dict pyval) : attrs :=
  {| value := value a; _priority := _priority a; _size := _size a;
     fields := f; __lazy_calls := __lazy_calls a;
     __func_calls := __func_calls a |}.

Definition set_lazy_calls (a : attrs) (d : dict lazy_call) : attrs :=
  {| value := value a; _priority := _priority a; _size := _size a;
     fields := fields a; __lazy_calls := d;
     __func_calls := __func_calls a |}.

Definition set_func_calls (a : attrs) (d : dict func_call) : attrs :=
  {| value := value a; _priority := _priority a; _size := _size a;
     fields := fields a; __lazy_calls := __lazy_calls a;
     __func_calls := d |}.

(** [__init__(value, value_func=None)]; [priority] is the draw of
    [random.randint(0, 1000000)]. *)
Definition __init__ (v : pyval) (vf : option value_callable) (priority : Z)
  : vertex :=
  TreapVertex
    {| value := v; _priority := priority; _size := 1; fields := [];
       __lazy_calls := []; __func_calls := [("value", value_func vf)] |}
    PyNone PyNone.

(** [__bool__]: [self._size > 0 and self.value is not None]. *)
Definition __bool__ (a : attrs) : bool :=
  (0 <? _size a) &&
  match value a with
  | Some _ => true
  | None => false
  end.

(** The truth value of an [Optional] vertex, as in [if self._left:]. *)
Definition truth (o : vertex) : bool :=
  match o with
  | PyNone => false
  | TreapVertex a _ _ => __bool__ a
  end.

(** [__len__]. *)
Definition __len__ (a : attrs) : Z :=
  if __bool__ a then _size a else 0.

(** The builtin [len(o)]: a [TypeError] on [None]. *)
Definition len (o : vertex) : result Z :=
  match o with
  | PyNone => Raise TypeError
  | TreapVertex a _ _ => Ok (__len__ a)
  end.

(** Modelled from the spec: the base class [Vertex] (module
    [umini.data.tree.base.vertex]) is missing, and with it the
    [__getattr__] that the wrappers call.  The spec keeps per vertex a
    mapping from registered field name to its current computed value:
    [__getattr__(field)] reads that mapping (the attribute [value] for the
    field ["value"]), and a field never set is an [AttributeError]. *)
Definition __getattr__ (a : attrs) (field : string) : result pyval :=
  if String.eqb field "value" then Ok (value a)
  else match dict_get (fields a) field with
       | Some v => Ok v
       | None => Raise AttributeError
       end.

Definition __setattr__ (a : attrs) (field : string) (v : pyval) : attrs :=
  if String.eqb field "value" then set_value a v
  else set_fields a (dict_set (fields a) field v).

(** [o.__getattr__(field)] on an [Optional] vertex. *)
Definition getattr (o : vertex) (field : string) : result pyval :=
  match o with
  | PyNone => Raise AttributeError
  | TreapVertex a _ _ => __getattr__ a field
  end.

(** *** The closures of [computable] *)

(** One child of the lazy wrapper:
    [if self._left: self._left.__setattr__(field, func(self._left.__getattr__(field), push_value))]. *)
Definition push_child (field : string) (func : pyfun) (push_value : pyval)
    (c : vertex) : result vertex :=
  match c with
  | PyNone => Ok PyNone
  | TreapVertex a l r =>
      if __bool__ a then
        x <- __getattr__ a field ;;
        y <- func x push_value ;;
        Ok (TreapVertex (__setattr__ a field y) l r)
      else Ok c
  end.

(** The [wrapper(self, push_value)] of an [on_range] field. *)
Definition lazy_wrapper_call (field : string) (func reverse_func : pyfun)
    (self : vertex) (push_value : pyval) : result vertex :=
  match self with
  | PyNone => Raise AttributeError
  | TreapVertex a l r =>
      a1 <- (if __bool__ a then
               x <- __getattr__ a field ;;
               y <- reverse_func x push_value ;;
               Ok (__setattr__ a field y)
             else Ok a) ;;
      l1 <- push_child field func push_value l ;;
      r1 <- push_child field func push_value r ;;
      Ok (TreapVertex a1 l1 r1)
  end.

(** [x or T_co()]. *)
Definition or_T_co (x : pyval) : result pyval :=
  match x with
  | Some t => if truthy t then Ok x else T_co_call
  | None => T_co_call
  end.

(** The [wrapper(self)] of a field that is not [on_range]. *)
Definition func_wrapper_call (field : string) (func : pyfun)
    (self : vertex) : result vertex :=
  match self with
  | PyNone => Ok PyNone
  | TreapVertex a l r =>
      if __bool__ a then
        xl <- getattr l field ;;
        xl' <- or_T_co xl ;;
        xr <- getattr r field ;;
        xr' <- or_T_co xr ;;
        y <- func xl' xr' ;;
        Ok (TreapVertex (__setattr__ a field y) l r)
      else Ok self
  end.

(** [self.__func_calls[attr](self)].  A [value_func] that is [None] is
    not callable, a [TypeError]; a stored callable is called with the one
    argument [self]. *)
Definition call_func (c : func_call) (self : vertex) : result vertex :=
  match c with
  | value_func None => Raise TypeError
  | value_func (Some returns_for_self) => Ok self
  | value_func (Some (raises_for_self e)) => Raise e
  | func_wrapper field func => func_wrapper_call field func self
  end.

Definition lazy_calls_of (o : vertex) : dict lazy_call :=
  match o with
  | PyNone => []
  | TreapVertex a _ _ => __lazy_calls a
  end.

Definition func_calls_of (o : vertex) : dict func_call :=
  match o with
  | PyNone => []
  | TreapVertex a _ _ => __func_calls a
  end.

(** *** push *)

(** The loop [for attr, value in kwargs.items()] of [push]. *)
Fixpoint push_loop (self : vertex) (kwargs : dict pyval) : result vertex :=
  match kwargs with
  | [] => Ok self
  | (attr, v) :: rest =>
      match dict_get (lazy_calls_of self) attr with
      | Some (lazy_wrapper field func reverse_func) =>
          self1 <- lazy_wrapper_call field func reverse_func self v ;;
          push_loop self1 rest
      | None => push_loop self rest
      end
  end.

(** [self.push] with the keyword arguments [kwargs]; on [None] the attribute lookup fails. *)
Definition push (self : vertex) (kwargs : dict pyval) : result vertex :=
  match self with
  | PyNone => Raise AttributeError
  | TreapVertex a _ _ => if __bool__ a then push_loop self kwargs else Ok self
  end.

(** *** update *)

(** The loop [for attr in args] of [update]: an entry that is missing or
    [None] is skipped. *)
Fixpoint update_named (self : vertex) (args : list string) : result vertex :=
  match args with
  | [] => Ok self
  | attr :: rest =>
      match dict_get (func_calls_of self) attr with
      | None | Some (value_func None) => update_named self rest
      | Some c => self1 <- call_func c self ;; update_named self1 rest
      end
  end.

(** The loop [for attr in self.__func_calls] of the [else] clause: every
    entry is called, without the test of the first loop. *)
Fixpoint update_all (self : vertex) (calls : dict func_call) : result vertex :=
  match calls with
  | [] => Ok self
  | (_, c) :: rest => self1 <- call_func c self ;; update_all self1 rest
  end.

(** [self.update] with the positional arguments [args].  The first loop has no [break], so the [else]
    clause of the [for] runs after it every time. *)
Definition update (self : vertex) (args : list string) : result vertex :=
  match self with
  | PyNone => Raise AttributeError
  | TreapVertex a l r =>
      if __bool__ a then
        nl <- len l ;;
        nr <- len r ;;
        self1 <- update_named (TreapVertex (set_size a (nl + nr + 1)) l r) args ;;
        update_all self1 (__func_calls a)
      else Ok self
  end.

(** *** split *)

(** [self.split(key, add)] with further positional [args] and keyword [kwargs].  [depth] is the number of
    stack frames left before Python's recursion limit.  The result is
    [(left, right, self')]: the pair the method returns and the state of
    the object [self] after the call (the caller still holds [self] as a
    child).  The recursive calls pass [key], [add] and [**kwargs] only, so
    their [args] is empty. *)
Fixpoint split_rec (depth : nat) (self : vertex) (key add : Z)
    (args : list string) (kwargs : dict pyval)
  : result (vertex * vertex * vertex) :=
  match self with
  | PyNone => Raise AttributeError
  | TreapVertex a0 _ _ =>
      match depth with
      | O => Raise RecursionError
      | S depth' =>
          if negb (__bool__ a0) then Ok (self, self, self)
          else
            self1 <- push self kwargs ;;
            match self1 with
            | PyNone => Raise AttributeError
            | TreapVertex a l r =>
                nl <- len l ;;
                let cur_key := nl + add in
                if cur_key <=? key then
                  '(left_, _, l') <- split_rec depth' l key add [] kwargs ;;
                  self2 <- update (TreapVertex a l' r) args ;;
                  Ok (left_, self2, self2)
                else
                  '(_, right_, r') <-
                    split_rec depth' r key (add + nl + 1) [] kwargs ;;
                  self2 <- update (TreapVertex a l r') args ;;
                  Ok (self2, right_, self2)
            end
      end
  end.

(** *** merge *)

(** [self.merge(l, r)] with further positional [args] and keyword [kwargs].  The receiver [self] is only used
    to recurse and for its [self.update]; it is taken to be an object
    apart from [l] and [r].  The result is the returned vertex and the
    state of the receiver after the call. *)
Fixpoint merge_rec (depth : nat) (self l r : vertex)
    (args : list string) (kwargs : dict pyval) : result (vertex * vertex) :=
  match depth with
  | O => Raise RecursionError
  | S depth' =>
      l1 <- push l kwargs ;;
      r1 <- push r kwargs ;;
      match l1, r1 with
      | TreapVertex al ll lr, TreapVertex ar rl rr =>
          if negb (__bool__ al) || negb (__bool__ ar) then
            Ok ((if __bool__ al then l1 else r1), self)
          else if _priority al >? _priority ar then
            '(m, self1) <- merge_rec depth' self lr r1 args kwargs ;;
            Ok (TreapVertex al ll m, self1)
          else
            '(m, self1) <- merge_rec depth' self l1 rl args kwargs ;;
            self2 <- update self1 args ;;
            Ok (TreapVertex ar m rr, self2)
      | _, _ => Raise AttributeError
      end
  end.

(** Python's default recursion limit. *)
Definition recursion_limit : nat := 1000.

Definition split (self : vertex) (key add : Z) (args : list string)
    (kwargs : dict pyval) : result (vertex * vertex * vertex) :=
  split_rec recursion_limit self key add args kwargs.

Definition merge (self l r : vertex) (args : list string)
    (kwargs : dict pyval) : result (vertex * vertex) :=
  merge_rec recursion_limit self l r args kwargs.

(** *** computable *)

(** A class as [computable] sees it: its [__annotations__]; [pytype] is
    the type of the annotations. *)
Record pyclass (pytype : Type) : Type := {
  __annotations__ : dict pytype
}.
Arguments __annotations__ {pytype} _.

(** [cls.computable(self, field, reverse_func, on_range)(func)]: the
    registration is the call of the returned [decorator] on [func], and
    its effect is the new state of [self].  [issubclass_T_co ty] is the
    outcome of [issubclass(ty, T_co)]. *)
Definition computable {pytype : Type}
    (issubclass_T_co : pytype -> result bool) (cls : pyclass pytype)
    (self : vertex) (field : string) (reverse_func : option pyfun)
    (on_range : bool) (func : pyfun) : result vertex :=
  match dict_get (__annotations__ cls) field with
  | None => Raise ValueError
  | Some ty =>
      b <- issubclass_T_co ty ;;
      if negb b then Raise ValueError
      else if on_range then
        match reverse_func with
        | None => Raise ValueError
        | Some rev =>
            match self with
            | PyNone => Raise AttributeError
            | TreapVertex a l r =>
                Ok (TreapVertex
                      (set_lazy_calls a
                         (dict_set (__lazy_calls a) field
                            (lazy_wrapper field func rev))) l r)
            end
        end
      else
        match self with
        | PyNone => Raise AttributeError
        | TreapVertex a l r =>
            Ok (TreapVertex
                  (set_func_calls a
                     (dict_set (__func_calls a) field
                        (func_wrapper field func))) l r)
        end
  end.

(** *** The max-heap property on priorities *)

(** A child slot [c] respects the priority [p] of its parent: a present
    child's priority does not exceed [p]. *)
Definition below (p : Z) (c : vertex) : bool :=
  match c with
  | PyNone => true
  | TreapVertex a _ _ => if __bool__ a then _priority a <=? p else true
  end.

Fixpoint max_heap (t : vertex) : bool :=
  match t with
  | PyNone => true
  | TreapVertex a l r =>
      below (_priority a) l && below (_priority a) r &&
      max_heap l && max_heap r
  end.

(** [later c c']: [c'] is a later state of the objects of [c].  The
    vertices are the same objects in the same slots, no priority has
    changed, and no vertex that was false has become true. *)
Fixpoint later (c c' : vertex) : Prop :=
  match c, c' with
  | PyNone, PyNone => True
  | TreapVertex a l r, TreapVertex a' l' r' =>
      _priority a' = _priority a /\
      (__bool__ a' = true -> __bool__ a = true) /\
      later l l' /\ later r r'
  | _, _ => False
  end.

(** [o.__setattr__(field, y)] on a vertex object. *)
Definition setattr (o : vertex) (field : string) (y : pyval) : vertex :=
  match o with
  | PyNone => PyNone
  | TreapVertex a l r => TreapVertex (__setattr__ a field y) l r
  end.

(** What the lazy wrapper of [field] with propagate function [func] does
    to one child slot when [push_value] is pushed on the parent: a child
    that is false (or [None]) is left alone, a child that is true has its
    own [field] replaced by [func(field, push_value)]. *)
Inductive child_pushed (field : string) (func : pyfun) (push_value : pyval)
  : vertex -> vertex -> Prop :=
| child_pushed_absent (c : vertex) :
    truth c = false -> child_pushed field func push_value c c
| child_pushed_present (c : vertex) (y y' : pyval) :
    truth c = true ->
    getattr c field = Ok y ->
    func y push_value = Ok y' ->
    child_pushed field func push_value c (setattr c field y').

(** *** What a call leaves alone *)

(** The slots of a vertex that no wrapper writes: only [value] and the
    registered fields may differ between [a] and [a']. *)
Definition frozen (a a' : attrs) : Prop :=
  _priority a' = _priority a /\ _size a' = _size a /\
  __lazy_calls a' = __lazy_calls a /\ __func_calls a' = __func_calls a.

(** A child slot before and after a call on its parent: the same object
    with the same two children, changed at most in its own [value] and
    fields, and not at all when it was false. *)
Definition touched (c c' : vertex) : Prop :=
  match c, c' with
  | PyNone, PyNone => True
  | TreapVertex a l r, TreapVertex a' l' r' =>
      frozen a a' /\ (__bool__ a = false -> a' = a) /\ l' = l /\ r' = r
  | _, _ => False
  end.

(** The length a child slot contributes: [len] of a vertex object, and 0
    for an empty slot. *)
Definition slot_len (o : vertex) : Z :=
  match o with
  | PyNone => 0
  | TreapVertex a _ _ => __len__ a
  end.

(** No [_size] is too small: every vertex that is true counts at least
    its two children and itself. *)
Fixpoint sizes_cover (t : vertex) : bool :=
  match t with
  | PyNone => true
  | TreapVertex a l r =>
      (if __bool__ a then slot_len l + slot_len r + 1 <=? _size a else true)
      && sizes_cover l && sizes_cover r
  end.

(** The vertices in order, each as the record of its attributes; a
    vertex that is false (or an empty slot) stands for the empty
    sequence, as [split], [merge] and [len] treat it. *)
Fixpoint inorder (t : vertex) : list attrs :=
  match t with
  | PyNone => []
  | TreapVertex a l r =>
      if __bool__ a then inorder l ++ a :: inorder r else []
  end.

(** Every child slot below a vertex that is true holds a vertex object:
    the tree ends in vertices that are false, not in [None]. *)
Fixpoint ends_in_vertices (t : vertex) : bool :=
  match t with
  | PyNone => false
  | TreapVertex a l r =>
      if __bool__ a then ends_in_vertices l && ends_in_vertices r else true
  end.

(** [subvertex s t]: the vertex [s] is [t] or sits in a child slot
    somewhere below [t]. *)
Fixpoint subvertex (s t : vertex) : Prop :=
  s = t \/
  match t with
  | PyNone => False
  | TreapVertex _ l r => subvertex s l \/ subvertex s r
  end.

(** Every wrapper in [__func_calls] is registered under the field it
    writes, as line 146 enters it. *)
Definition keyed_by_field (calls : dict func_call) : Prop :=
  Forall (fun kc => match snd kc with
                    | func_wrapper field _ => field = fst kc
                    | value_func _ => True
                    end) calls.

(** The state of a vertex after [push], or after a lazy wrapper, ran on
    it: its own slots frozen (and nothing changed when it was false),
    each child touched. *)
Definition pushed (v v' : vertex) : Prop :=
  match v, v' with
  | PyNone, PyNone => True
  | TreapVertex a l r, TreapVertex a' l' r' =>
      frozen a a' /\ (__bool__ a = false -> a' = a) /\
      touched l l' /\ touched r r'
  | _, _ => False
  end.

(** The value the aggregate wrapper of [field] computes from the two
    child slots [l] and [r]: [func(l.field or T_co(), r.field or T_co())]. *)
Definition aggregate (field : string) (func : pyfun) (l r : vertex)
  : result pyval :=
  xl <- getattr l field ;;
  xl' <- or_T_co xl ;;
  xr <- getattr r field ;;
  xr' <- or_T_co xr ;;
  func xl' xr'.

(** The number of nested calls a walk from [t] to its deepest slot
    makes. *)
Fixpoint height (t : vertex) : nat :=
  match t with
  | PyNone => O
  | TreapVertex _ l r => S (Nat.max (height l) (height r))
  end.

End Vertex.

Arguments pyval T : clear implicits.
Arguments pyfun T : clear implicits.
Arguments func_call T : clear implicits.
Arguments lazy_call T : clear implicits.
Arguments attrs T : clear implicits.
Arguments vertex T : clear implicits.
Arguments PyNone {T}.
Arguments __annotations__ {pytype} _.

End _TreapVertex.

Module ImplicitTreap.

Section Treap.
Context {T : Type}.

Record treap : Type := {
  _tree : _TreapVertex.vertex T
}.

(** [ImplicitTreap(root=None)]. *)
Definition __init__ (root : _TreapVertex.vertex T) : treap :=
  {| _tree := root |}.

(** [__len__]: [len(self._tree)]. *)
Definition __len__ (t : treap) : result Z :=
  _TreapVertex.len (_tree t).

(** [__bool__]: [self._tree is not None]. *)
Definition __bool__ (t : treap) : bool :=
  match _tree t with
  | _TreapVertex.PyNone => false
  | _TreapVertex.TreapVertex _ _ _ => true
  end.

End Treap.

Arguments treap T : clear implicits.

End ImplicitTreap.

Import _TreapVertex.

(** ** Vertices over Python ints, used to run the code *)

(** [int] as the value type: a value is true when it is not [0].  [T_co]
    is the [TypeVar] of line 7 whatever the value type is, so [T_co()]
    raises [TypeError]. *)
#[export] Instance int_computable : VertexComputable Z :=
  {| truthy := fun z => negb (z =? 0); T_co_call := Raise TypeError |}.

(** [operator.add] and [min] on ints; [None] is not an int. *)
Definition add_func : pyfun Z := fun x y =>
  match x, y with
  | Some a, Some b => Ok (Some (a + b))
  | _, _ => Raise TypeError
  end.

Definition min_func : pyfun Z := fun x y =>
  match x, y with
  | Some a, Some b => Ok (Some (Z.min a b))
  | _, _ => Raise TypeError
  end.

(** [_TreapVertex(None)]: a vertex object that is false. *)
Definition absent : vertex Z := __init__ None None 0.

(** [v = _TreapVertex(x)] followed by
    [v.left = _TreapVertex(None); v.right = _TreapVertex(None)]. *)
Definition leaf (x p : Z) : vertex Z :=
  TreapVertex
    {| value := Some x; _priority := p; _size := 1; fields := [];
       __lazy_calls := []; __func_calls := [("value", value_func None)] |}
    absent absent.

(** A registry that holds the aggregate wrapper of ["value"]. *)
Definition value_registry : dict (func_call Z) :=
  [("value", func_wrapper "value" add_func)].

(** A registry that holds the aggregate wrappers of ["value"], ["sum"]
    and ["mn"]. *)
Definition sum_min_registry : dict (func_call Z) :=
  [("value", func_wrapper "value" add_func);
   ("sum", func_wrapper "sum" add_func);
   ("mn", func_wrapper "mn" min_func)].

(** The registry of a lazy field ["sum"] whose two functions add. *)
Definition lazy_sum_registry : dict (lazy_call Z) :=
  [("sum", lazy_wrapper "sum" add_func add_func)].

Definition vertex_with (x p n : Z) (fs : dict (pyval Z))
    (lz : dict (lazy_call Z)) (fc : dict (func_call Z))
    (l r : vertex Z) : vertex Z :=
  TreapVertex
    {| value := Some x; _priority := p; _size := n; fields := fs;
       __lazy_calls := lz; __func_calls := fc |} l r.

(** The registry of [_TreapVertex(x, f)] for a callable [f] that accepts
    a single argument. *)
Definition accepting_registry : dict (func_call Z) :=
  [("value", value_func (Some returns_for_self))].

(** Two elements [7, 3]: the root holds 7, its right child holds 3; both
    are built as [_TreapVertex(x, f)] and end in [_TreapVertex(None)]. *)
Definition two_elements : vertex Z :=
  vertex_with 7 9 2 [] [] accepting_registry absent
    (vertex_with 3 4 1 [] [] accepting_registry absent absent).

(** Two elements [3, 7]: the root holds 7, its left child holds 3. *)
Definition two_elements_left : vertex Z :=
  vertex_with 7 9 2 [] [] accepting_registry
    (vertex_with 3 4 1 [] [] accepting_registry absent absent)
    absent.

(** A vertex whose [value] is [None], with a stored ["sum"] of [s] and a
    child that is true below it. *)
Definition none_valued (s : Z) : vertex Z :=
  TreapVertex
    {| value := None; _priority := 4; _size := 2;
       fields := [("sum", Some s)]; __lazy_calls := [];
       __func_calls := accepting_registry |}
    (vertex_with 8 1 1 [("sum", Some 8)] [] accepting_registry absent absent)
    absent.

(** A parent that is true, with the aggregate ["sum"] registered, over a
    left child [c] and a right child that holds 6. *)
Definition parent_of (c : vertex Z) : vertex Z :=
  vertex_with 1 9 3 [("sum", Some 0)] []
    [("value", value_func (Some returns_for_self));
     ("sum", func_wrapper "sum" add_func)]
    c
    (vertex_with 6 2 1 [("sum", Some 6)] [] accepting_registry absent absent).

(** Three elements with the fields ["sum"] and ["mn"]; the root's two
    fields are out of date. *)
Definition stale_root : vertex Z :=
  vertex_with 5 9 3 [("sum", Some 100); ("mn", Some 100)] []
    sum_min_registry
    (vertex_with 4 1 1 [("sum", Some 4); ("mn", Some 4)] []
       sum_min_registry absent absent)
    (vertex_with 6 2 1 [("sum", Some 6); ("mn", Some 6)] []
       sum_min_registry absent absent).

(** A parent and its left child, both with the lazy field ["sum"]. *)
Definition lazy_parent : vertex Z :=
  vertex_with 1 9 2 [("sum", Some 10)] lazy_sum_registry value_registry
    (vertex_with 2 4 1 [("sum", Some 4)] lazy_sum_registry value_registry
       absent absent)
    absent.

(** [issubclass(ty, T_co)] as the source has it (lines 121-122): [T_co]
    is a [TypeVar], not a class, so the call raises [TypeError] for every
    annotation [ty]. *)
Definition issubclass_TypeVar {pytype : Type} (ty : pytype) : result bool :=
  Raise TypeError.

(** The attributes of [vertex_with]. *)
Definition attrs_with (x p n : Z) (fs : dict (pyval Z))
    (lz : dict (lazy_call Z)) (fc : dict (func_call Z)) : attrs Z :=
  {| value := Some x; _priority := p; _size := n; fields := fs;
     __lazy_calls := lz; __func_calls := fc |}.

(** [stale_root] after [update('sum')]. *)
Definition stale_root_updated : vertex Z :=
  vertex_with 10 9 3 [("sum", Some 10); ("mn", Some 4)] []
    sum_min_registry (left stale_root) (right stale_root).

(** [lazy_parent] after [push(sum=5)]. *)
Definition lazy_parent_pushed : vertex Z :=
  vertex_with 1 9 2 [("sum", Some 15)] lazy_sum_registry value_registry
    (vertex_with 2 4 1 [("sum", Some 9)] lazy_sum_registry value_registry
       absent absent)
    absent.

(** ** The runtime helpers *)

Lemma dict_get_set_same {A : Type} (d : dict A) (k : string) (v : A) :
  dict_get (dict_set d k v) k = Some v.
Proof.
  induction d as [|[k' v'] d IH]; simpl.
  - now rewrite String.eqb_refl.
  - destruct (String.eqb k' k) eqn:E; simpl; rewrite E; auto.
Qed.

Lemma dict_get_set_other {A : Type} (d : dict A) (k k0 : string) (v : A) :
  k <> k0 -> dict_get (dict_set d k v) k0 = dict_get d k0.
Proof.
  intros Hk. induction d as [|[k' v'] d IH]; simpl.
  - destruct (String.eqb k k0) eqn:E; auto.
    apply String.eqb_eq in E. contradiction.
  - destruct (String.eqb k' k) eqn:E; simpl.
    + apply String.eqb_eq in E. subst k'.
      destruct (String.eqb k k0) eqn:E0; auto.
      apply String.eqb_eq in E0. contradiction.
    + destruct (String.eqb k' k0); auto.
Qed.

Lemma recursion_limit_pos : recursion_limit = S (Nat.pred recursion_limit).
Proof. reflexivity. Qed.

Lemma recursion_limit_two :
  recursion_limit = S (S (Nat.pred (Nat.pred recursion_limit))).
Proof. reflexivity. Qed.

Section Maintenance.
Context {T : Type} `{VertexComputable T}.

Lemma push_loop_no_lazy (self : vertex T) (kwargs : dict (pyval T)) :
  lazy_calls_of self = [] -> push_loop self kwargs = Ok self.
Proof.
  intros Hl. induction kwargs as [|[attr v] rest IH]; simpl; auto.
  rewrite Hl. simpl. exact IH.
Qed.

Lemma push_loop_nil (self : vertex T) : push_loop self [] = Ok self.
Proof. reflexivity. Qed.

Lemma push_init (v : pyval T) (vf : option value_callable) (p : Z)
    (kwargs : dict (pyval T)) :
  push (__init__ v vf p) kwargs = Ok (__init__ v vf p).
Proof.
  unfold push, __init__.
  destruct (__bool__ _); auto.
  apply push_loop_no_lazy. reflexivity.
Qed.

Lemma split_unfold (t : vertex T) (key add : Z) (args : list string)
    (kwargs : dict (pyval T)) :
  split t key add args kwargs
  = split_rec recursion_limit t key add args kwargs.
Proof. unfold split. reflexivity. Qed.

Lemma merge_unfold (self l r : vertex T) (args : list string)
    (kwargs : dict (pyval T)) :
  merge self l r args kwargs
  = merge_rec recursion_limit self l r args kwargs.
Proof. unfold merge. reflexivity. Qed.

Lemma bool_init_some (x : T) (vf : option value_callable) (p : Z) :
  truth (__init__ (Some x) vf p) = true.
Proof. reflexivity. Qed.

End Maintenance.

(** ** split and merge on vertices as [__init__] leaves them *)

Section FreshVertices.
Context {T : Type} `{VertexComputable T}.

Lemma split_rec_init (d : nat) (x : T) (vf : option value_callable)
    (p key add : Z) (args : list string) (kwargs : dict (pyval T)) :
  split_rec (S d) (__init__ (Some x) vf p) key add args kwargs
  = Raise TypeError.
Proof.
  cbn [split_rec __init__]. fold (__init__ (Some x) vf p).
  change (__bool__ _) with true. cbn [negb].
  rewrite push_init. reflexivity.
Qed.

Lemma merge_rec_init (d : nat) (self : vertex T) (x1 x2 : T)
    (vf1 vf2 : option value_callable) (p1 p2 : Z) (args : list string)
    (kwargs : dict (pyval T)) :
  merge_rec (S (S d)) self (__init__ (Some x1) vf1 p1)
            (__init__ (Some x2) vf2 p2) args kwargs
  = Raise AttributeError.
Proof.
  cbn [merge_rec]. rewrite !push_init. cbn [bind __init__].
  change (__bool__ _) with true at 1. change (__bool__ _) with true at 1.
  cbn [negb orb _priority].
  destruct (p1 >? p2).
  - cbn [push bind]. reflexivity.
  - fold (__init__ (Some x1) vf1 p1).
    rewrite push_init. reflexivity.
Qed.

(** C1.  A tree of one element, [t = _TreapVertex(x)], has [None] in both
    child slots.  For every cut index, [t.split(key, add)] raises
    [TypeError] at [len(self.left)], so there is no pair to merge back:
    the round trip of [split] and [merge] does not give [t]. *)
Theorem split_of_single_vertex_raises (x : T) (vf : option value_callable)
    (p key add : Z) (args : list string) (kwargs : dict (pyval T)) :
  split (__init__ (Some x) vf p) key add args kwargs = Raise TypeError.
Proof.
  unfold split. rewrite recursion_limit_pos. apply split_rec_init.
Qed.

(** C7.  The child slots of a new vertex hold [None], and [merge] calls
    [push] on whatever it is handed.  Merging two one-element trees
    recurses into [merge(l.right, r)] or [merge(l, r.left)] with a [None]
    argument, and [None.push] is an [AttributeError]; [push] and [update]
    called on [None] are an [AttributeError] as well. *)
Theorem merge_of_single_vertices_raises (self : vertex T) (x1 x2 : T)
    (vf1 vf2 : option value_callable) (p1 p2 : Z) (args : list string)
    (kwargs : dict (pyval T)) :
  merge self (__init__ (Some x1) vf1 p1) (__init__ (Some x2) vf2 p2)
        args kwargs = Raise AttributeError
  /\ push (@PyNone T) kwargs = Raise AttributeError
  /\ update (@PyNone T) args = Raise AttributeError.
Proof.
  split; [|split; reflexivity].
  unfold merge. rewrite recursion_limit_two. apply merge_rec_init.
Qed.

End FreshVertices.

(** ** Vertices that are false *)

Section AbsentVertices.
Context {T : Type} `{VertexComputable T}.

Lemma bool_set_value_none (a : attrs T) : __bool__ (set_value a None) = false.
Proof. unfold __bool__. simpl. apply andb_false_r. Qed.

Lemma push_absent (a : attrs T) (l r : vertex T) (kwargs : dict (pyval T)) :
  __bool__ a = false ->
  push (TreapVertex a l r) kwargs = Ok (TreapVertex a l r).
Proof. intros Hb. unfold push. now rewrite Hb. Qed.

Lemma update_absent (a : attrs T) (l r : vertex T) (args : list string) :
  __bool__ a = false ->
  update (TreapVertex a l r) args = Ok (TreapVertex a l r).
Proof. intros Hb. unfold update. now rewrite Hb. Qed.

Lemma split_rec_absent (d : nat) (a : attrs T) (l r : vertex T)
    (key add : Z) (args : list string) (kwargs : dict (pyval T)) :
  __bool__ a = false ->
  split_rec (S d) (TreapVertex a l r) key add args kwargs
  = Ok (TreapVertex a l r, TreapVertex a l r, TreapVertex a l r).
Proof. intros Hb. cbn [split_rec]. now rewrite Hb. Qed.

Lemma len_absent (a : attrs T) (l r : vertex T) :
  __bool__ a = false -> len (TreapVertex a l r) = Ok 0.
Proof. intros Hb. unfold len, __len__. now rewrite Hb. Qed.

Lemma push_without_kwargs (a : attrs T) (l r : vertex T) :
  push (TreapVertex a l r) [] = Ok (TreapVertex a l r).
Proof. unfold push. now destruct (__bool__ a). Qed.

Lemma merge_rec_left_absent (d : nat) (self : vertex T) (a ar : attrs T)
    (l r rl rr : vertex T) (args : list string) :
  __bool__ a = false ->
  merge_rec (S d) self (TreapVertex a l r) (TreapVertex ar rl rr) args []
  = Ok (TreapVertex ar rl rr, self).
Proof.
  intros Hb. cbn [merge_rec]. rewrite !push_without_kwargs. cbn [bind].
  rewrite Hb. reflexivity.
Qed.


(** C9.  [ImplicitTreap()] keeps [None] as its root, and [__len__] hands
    that root to [len]: the length of the empty treap is a [TypeError].
    With a vertex as root the length is its [_size] when the vertex is
    true and 0 when it is false. *)
Theorem len_of_treap_without_root_raises :
  ImplicitTreap.__len__ (ImplicitTreap.__init__ (@PyNone T)) = Raise TypeError
  /\ forall (a : attrs T) (l r : vertex T),
       ImplicitTreap.__len__ (ImplicitTreap.__init__ (TreapVertex a l r))
       = Ok (if __bool__ a then _size a else 0).
Proof. split; reflexivity. Qed.

End AbsentVertices.

(** ** Runs of the code on vertices over ints *)

(** C2.  On the two elements [7, 3] the root has position 0, and the cut
    index 1 is not below it.  The code then recurses into the LEFT child
    (the false vertex, which comes back as both halves), keeps that
    recursion's left result, and returns the root as the RIGHT part with
    its children as they were: the right child is never split and nothing
    is attached.  On the two elements [3, 7] the root has position 1,
    above the cut index 0.  The code then recurses into the RIGHT child
    and returns the root as the LEFT part, its left child still
    attached. *)
Theorem split_recurses_into_left_child :
  split two_elements 1 0 [] [] = Ok (absent, two_elements, two_elements)
  /\ truth absent = false
  /\ len (left two_elements) = Ok 0
  /\ split two_elements_left 0 0 [] []
     = Ok (two_elements_left, absent, two_elements_left)
  /\ len (left two_elements_left) = Ok 1.
Proof. vm_compute. repeat split. Qed.

(** C4.  [update('sum')] names one field.  On a vertex whose registry is
    the one [__init__] leaves, the named loop skips ["sum"] and the
    [else] clause then calls the entry ["value"], which is [None]: a
    [TypeError].  On a vertex with ["value"], ["sum"] and ["mn"]
    registered, the fields ["mn"] and ["value"] are recomputed although
    only ["sum"] was named. *)
Theorem update_runs_every_field_after_the_named_ones :
  update (leaf 5 3) ["sum"] = Raise TypeError
  /\ update stale_root ["sum"]
     = Ok (vertex_with 10 9 3 [("sum", Some 10); ("mn", Some 4)] []
             sum_min_registry (left stale_root) (right stale_root))
  /\ getattr stale_root "mn" = Ok (Some 100).
Proof. vm_compute. repeat split. Qed.

(** C5.  [l] has the larger priority: [merge] sets [l.right] and returns
    [l] without any call of [update].  The returned root still has
    [_size] 1 with a right child of length 1.  When [r] has the larger
    priority, [update] is called on the receiver of [merge], not on the
    returned [r], whose [_size] is as stale. *)
Theorem merge_returns_root_without_update (self : vertex Z) :
  merge self (leaf 1 2) (leaf 2 1) [] []
  = Ok (vertex_with 1 2 1 [] [] [("value", value_func None)]
          absent (leaf 2 1), self)
  /\ len (leaf 2 1) = Ok 1
  /\ merge absent (leaf 1 1) (leaf 2 2) [] []
     = Ok (vertex_with 2 2 1 [] [] [("value", value_func None)]
             (leaf 1 1) absent, absent).
Proof. vm_compute. repeat split. Qed.


(** C3, as the claim has it: a value pushed on the parent reaches the
    child's own field only when the child is next visited.  In the code
    the push of 5 on the parent changes the child's own ["sum"] from 4 to
    9 within the same call; nothing is kept pending. *)
Lemma push_changes_child_field_at_once :
  push lazy_parent [("sum", Some 5)]
  = Ok (vertex_with 1 9 2 [("sum", Some 15)] lazy_sum_registry value_registry
          (vertex_with 2 4 1 [("sum", Some 9)] lazy_sum_registry
             value_registry absent absent)
          absent)
  /\ getattr (left lazy_parent) "sum" = Ok (Some 4).
Proof. vm_compute. repeat split. Qed.

(** ** What the operations keep: same objects, same priorities *)

Lemma bind_ok {A B : Type} (m : result A) (k : A -> result B) (b : B) :
  bind m k = Ok b -> exists a, m = Ok a /\ k a = Ok b.
Proof. destruct m as [a|e]; simpl; intros E; [eauto | discriminate]. Qed.

Ltac bind_inv H :=
  let x := fresh "x" in
  let Hx := fresh "Hx" in
  apply bind_ok in H; destruct H as (x & Hx & H).

Section Later.
Context {T : Type} `{VertexComputable T}.

Lemma later_refl (c : vertex T) : later c c.
Proof. induction c; simpl; auto. Qed.

Lemma later_trans (c1 c2 c3 : vertex T) :
  later c1 c2 -> later c2 c3 -> later c1 c3.
Proof.
  revert c2 c3.
  induction c1 as [|a1 l1 IHl r1 IHr]; intros [|a2 l2 r2] [|a3 l3 r3];
    simpl; try tauto.
  intros (P1 & B1 & L1 & R1) (P2 & B2 & L2 & R2).
  repeat split; [congruence | tauto | eauto | eauto].
Qed.

Lemma later_below (p : Z) (c c' : vertex T) :
  later c c' -> below p c = true -> below p c' = true.
Proof.
  destruct c as [|a l r], c' as [|a' l' r']; simpl; try tauto.
  intros (Hp & Hb & _) Hc.
  destruct (__bool__ a') eqn:E; auto.
  rewrite (Hb eq_refl) in Hc. now rewrite Hp.
Qed.

Lemma later_max_heap (c c' : vertex T) :
  later c c' -> max_heap c = true -> max_heap c' = true.
Proof.
  revert c'.
  induction c as [|a l IHl r IHr]; intros [|a' l' r']; simpl; try tauto.
  intros (Hp & Hb & Hl & Hr). rewrite !andb_true_iff.
  intros [[[B1 B2] H1] H2]. rewrite Hp.
  repeat split; eauto using later_below.
Qed.

Lemma priority_setattr (a : attrs T) (f : string) (y : pyval T) :
  _priority (__setattr__ a f y) = _priority a.
Proof. unfold __setattr__. now destruct (String.eqb f "value"). Qed.

Lemma later_root (a a' : attrs T) (l l' r r' : vertex T) :
  _priority a' = _priority a ->
  (__bool__ a' = true -> __bool__ a = true) ->
  later l l' -> later r r' ->
  later (TreapVertex a l r) (TreapVertex a' l' r').
Proof. simpl. auto. Qed.

Lemma later_setattr (a : attrs T) (l r : vertex T) (f : string) (y : pyval T) :
  __bool__ a = true ->
  later (TreapVertex a l r) (TreapVertex (__setattr__ a f y) l r).
Proof.
  intros Hb. apply later_root; auto using later_refl, priority_setattr.
Qed.

Lemma push_child_later (f : string) (func : pyfun T) (v : pyval T)
    (c c' : vertex T) :
  push_child f func v c = Ok c' -> later c c'.
Proof.
  destruct c as [|a l r]; cbn [push_child].
  - intros E. inversion E. exact I.
  - destruct (__bool__ a) eqn:Hb.
    + intros E. bind_inv E. bind_inv E. inversion E. subst.
      now apply later_setattr.
    + intros E. inversion E. apply later_refl.
Qed.

Lemma lazy_wrapper_call_later (f : string) (func rev : pyfun T)
    (self self' : vertex T) (v : pyval T) :
  lazy_wrapper_call f func rev self v = Ok self' -> later self self'.
Proof.
  destruct self as [|a l r]; cbn [lazy_wrapper_call]; [discriminate|].
  intros E. bind_inv E. bind_inv E. bind_inv E. inversion E; subst.
  apply later_root; eauto using push_child_later.
  - destruct (__bool__ a) eqn:Hb.
    + bind_inv Hx. bind_inv Hx. inversion Hx. apply priority_setattr.
    + now inversion Hx.
  - destruct (__bool__ a) eqn:Hb; auto.
    inversion Hx; subst. congruence.
Qed.

Lemma func_wrapper_call_later (f : string) (func : pyfun T)
    (self self' : vertex T) :
  func_wrapper_call f func self = Ok self' -> later self self'.
Proof.
  destruct self as [|a l r]; cbn [func_wrapper_call].
  - intros E. inversion E. exact I.
  - destruct (__bool__ a) eqn:Hb.
    + intros E. do 5 bind_inv E. inversion E. now apply later_setattr.
    + intros E. inversion E. apply later_refl.
Qed.

Lemma call_func_later (c : func_call T) (self self' : vertex T) :
  call_func c self = Ok self' -> later self self'.
Proof.
  destruct c as [[[|e]|]|f func]; cbn [call_func].
  - intros E. inversion E. apply later_refl.
  - discriminate.
  - discriminate.
  - apply func_wrapper_call_later.
Qed.

Lemma push_loop_later (kwargs : dict (pyval T)) (self self' : vertex T) :
  push_loop self kwargs = Ok self' -> later self self'.
Proof.
  revert self. induction kwargs as [|[attr v] rest IH]; intros self; simpl.
  - intros E. inversion E. apply later_refl.
  - destruct (dict_get (lazy_calls_of self) attr) as [[f func rev]|]; auto.
    intros E. bind_inv E.
    eapply later_trans; eauto using lazy_wrapper_call_later.
Qed.

Lemma push_later (self self' : vertex T) (kwargs : dict (pyval T)) :
  push self kwargs = Ok self' -> later self self'.
Proof.
  destruct self as [|a l r]; cbn [push]; [discriminate|].
  destruct (__bool__ a).
  - apply push_loop_later.
  - intros E. inversion E. apply later_refl.
Qed.

Lemma update_named_later (args : list string) (self self' : vertex T) :
  update_named self args = Ok self' -> later self self'.
Proof.
  revert self. induction args as [|attr rest IH]; intros self; simpl.
  - intros E. inversion E. apply later_refl.
  - destruct (dict_get (func_calls_of self) attr) as [[[g|]|f func]|]; auto;
      intros E; bind_inv E;
      eapply later_trans; eauto using call_func_later.
Qed.

Lemma update_all_later (calls : dict (func_call T)) (self self' : vertex T) :
  update_all self calls = Ok self' -> later self self'.
Proof.
  revert self. induction calls as [|[k c] rest IH]; intros self; simpl.
  - intros E. inversion E. apply later_refl.
  - intros E. bind_inv E.
    eapply later_trans; eauto using call_func_later.
Qed.

Lemma update_later (self self' : vertex T) (args : list string) :
  update self args = Ok self' -> later self self'.
Proof.
  destruct self as [|a l r]; cbn [update]; [discriminate|].
  destruct (__bool__ a) eqn:Hb.
  - intros E. do 3 bind_inv E.
    eapply later_trans; [|eapply later_trans].
    2: eapply update_named_later; eassumption.
    2: eapply update_all_later; eassumption.
    apply later_root; auto using later_refl.
  - intros E. inversion E. apply later_refl.
Qed.

Lemma split_rec_later (d : nat) :
  forall (self : vertex T) (key add : Z) (args : list string)
         (kwargs : dict (pyval T)) (lres rres self' : vertex T),
    split_rec d self key add args kwargs = Ok (lres, rres, self') ->
    later self self' /\
    (max_heap self = true -> max_heap lres = true /\ max_heap rres = true).
Proof.
  induction d as [|d IH]; intros self key add args kwargs lres rres self'.
  - destruct self; simpl; discriminate.
  - destruct self as [|a0 l0 r0]; [simpl; discriminate|].
    cbn [split_rec].
    destruct (__bool__ a0) eqn:Hb0; cbn [negb].
    2:{ intros E. inversion E; subst. split; [apply later_refl | auto]. }
    intros E. bind_inv E. rename x into self1.
    pose proof (push_later _ _ _ Hx) as L1.
    destruct self1 as [|a l r]; [discriminate|].
    bind_inv E. rename x into nl.
    destruct (nl + add <=? key).
    + bind_inv E. destruct x as [[left_ mid] l'].
      bind_inv E. inversion E; subst. clear E.
      destruct (IH _ _ _ _ _ _ _ _ Hx1) as [Ll Hh].
      pose proof (update_later _ _ _ Hx2) as L2.
      assert (L3 : later (TreapVertex a0 l0 r0) self').
      { eapply later_trans; [exact L1|].
        eapply later_trans; [|exact L2].
        apply later_root; auto using later_refl. }
      split; [exact L3|].
      intros Hm. pose proof (later_max_heap _ _ L1 Hm) as Hm1.
      split; [|eapply later_max_heap; eauto].
      apply Hh. simpl in Hm1. rewrite !andb_true_iff in Hm1. tauto.
    + bind_inv E. destruct x as [[mid right_] r'].
      bind_inv E. inversion E; subst. clear E.
      destruct (IH _ _ _ _ _ _ _ _ Hx1) as [Lr Hh].
      pose proof (update_later _ _ _ Hx2) as L2.
      assert (L3 : later (TreapVertex a0 l0 r0) self').
      { eapply later_trans; [exact L1|].
        eapply later_trans; [|exact L2].
        apply later_root; auto using later_refl. }
      split; [exact L3|].
      intros Hm. pose proof (later_max_heap _ _ L1 Hm) as Hm1.
      split; [eapply later_max_heap; eauto|].
      apply Hh. simpl in Hm1. rewrite !andb_true_iff in Hm1. tauto.
Qed.

Lemma below_root (p : Z) (a : attrs T) (l r l' r' : vertex T) :
  below p (TreapVertex a l r) = below p (TreapVertex a l' r').
Proof. reflexivity. Qed.

Lemma merge_rec_max_heap (d : nat) :
  forall (self l r : vertex T) (args : list string)
         (kwargs : dict (pyval T)) (m self' : vertex T),
    merge_rec d self l r args kwargs = Ok (m, self') ->
    max_heap l = true -> max_heap r = true ->
    max_heap m = true /\
    (forall p, below p l = true -> below p r = true -> below p m = true).
Proof.
  induction d as [|d IH]; intros self l r args kwargs m self';
    [simpl; discriminate|].
  cbn [merge_rec]. intros E Hl Hr.
  bind_inv E. rename x into l1. bind_inv E. rename x into r1.
  pose proof (push_later _ _ _ Hx) as Ll.
  pose proof (push_later _ _ _ Hx0) as Lr.
  pose proof (later_max_heap _ _ Ll Hl) as Hl1.
  pose proof (later_max_heap _ _ Lr Hr) as Hr1.
  destruct l1 as [|al ll lr]; [discriminate|].
  destruct r1 as [|ar rl rr]; [discriminate|].
  destruct (__bool__ al) eqn:Bl; destruct (__bool__ ar) eqn:Br;
    cbn [negb orb] in E.
  2,3,4: inversion E; subst; split; auto; intros p Pl Pr;
    eauto using later_below.
  pose proof Hl1 as Hl1'. pose proof Hr1 as Hr1'.
  simpl in Hl1', Hr1'. rewrite !andb_true_iff in Hl1', Hr1'.
  destruct Hl1' as [[[Bll Blr] Hll] Hlr].
  destruct Hr1' as [[[Brl Brr] Hrl] Hrr].
  destruct (_priority al >? _priority ar) eqn:Cmp.
  - bind_inv E. destruct x as [m' self1]. inversion E; subst. clear E.
    destruct (IH _ _ _ _ _ _ _ Hx1 Hlr Hr1) as [Hm Hb].
    split.
    + simpl. rewrite !andb_true_iff. repeat split; auto.
      apply Hb; auto. simpl. rewrite Br. apply Z.leb_le.
      apply Z.gtb_lt in Cmp. lia.
    + intros p Pl Pr.
      rewrite (below_root p al ll m' ll lr). eauto using later_below.
  - bind_inv E. destruct x as [m' self1]. bind_inv E.
    inversion E; subst. clear E.
    destruct (IH _ _ _ _ _ _ _ Hx1 Hl1 Hrl) as [Hm Hb].
    split.
    + simpl. rewrite !andb_true_iff. repeat split; auto.
      apply Hb; auto. simpl. rewrite Bl. apply Z.leb_le.
      rewrite Z.gtb_ltb in Cmp. apply Z.ltb_ge in Cmp. lia.
    + intros p Pl Pr.
      rewrite (below_root p ar m' rr rl rr). eauto using later_below.
Qed.

(** C6.  Whenever [split] returns, both returned vertices satisfy the
    max-heap property on priorities if the vertex split did; whenever
    [merge] returns, the returned vertex satisfies it if [l] and [r]
    did. *)
Theorem max_heap_after_split_and_merge :
  (forall (t : vertex T) (key add : Z) (args : list string)
          (kwargs : dict (pyval T)) (lres rres t' : vertex T),
      max_heap t = true ->
      split t key add args kwargs = Ok (lres, rres, t') ->
      max_heap lres = true /\ max_heap rres = true)
  /\ (forall (self l r : vertex T) (args : list string)
             (kwargs : dict (pyval T)) (m self' : vertex T),
         max_heap l = true -> max_heap r = true ->
         merge self l r args kwargs = Ok (m, self') ->
         max_heap m = true).
Proof.
  split.
  - intros t key add args kwargs lres rres t' Ht E.
    rewrite split_unfold in E.
    destruct (split_rec_later _ _ _ _ _ _ _ _ _ E) as [_ Hh].
    exact (Hh Ht).
  - intros self l r args kwargs m self' Hl Hr E.
    rewrite merge_unfold in E.
    destruct (merge_rec_max_heap _ _ _ _ _ _ _ _ E Hl Hr) as [Hm _].
    exact Hm.
Qed.

End Later.

Lemma max_heap_after_split_and_merge_witness :
  (max_heap two_elements = true /\
   max_heap absent = true /\
   max_heap two_elements = true)
  /\ (max_heap (leaf 1 2) = true /\ max_heap (leaf 2 1) = true /\
      max_heap (vertex_with 1 2 1 [] [] [("value", value_func None)]
                  absent (leaf 2 1)) = true).
Proof.
  split.
  - split; [reflexivity|].
    apply (proj1 max_heap_after_split_and_merge two_elements 1 0 [] []
             absent two_elements two_elements).
    + reflexivity.
    + vm_compute. reflexivity.
  - split; [reflexivity|]. split; [reflexivity|].
    apply (proj2 max_heap_after_split_and_merge absent (leaf 1 2) (leaf 2 1)
             [] []
             (vertex_with 1 2 1 [] [] [("value", value_func None)]
                absent (leaf 2 1))
             absent).
    + reflexivity.
    + reflexivity.
    + vm_compute. reflexivity.
Defined.

(** ** push on a lazy field *)

Section LazyPush.
Context {T : Type} `{VertexComputable T}.

Lemma child_pushed_sound (field : string) (func : pyfun T) (v : pyval T)
    (c c' : vertex T) :
  child_pushed field func v c c' -> push_child field func v c = Ok c'.
Proof.
  intros [c0 Hc | c0 y y' Hc Hy Hf].
  - destruct c0 as [|a l r]; cbn [push_child]; auto.
    simpl in Hc. now rewrite Hc.
  - destruct c0 as [|a l r]; [discriminate|].
    simpl in Hc, Hy. cbn [push_child setattr].
    rewrite Hc, Hy. cbn [bind]. rewrite Hf. reflexivity.
Qed.

Lemma child_pushed_complete (field : string) (func : pyfun T) (v : pyval T)
    (c c' : vertex T) :
  push_child field func v c = Ok c' -> child_pushed field func v c c'.
Proof.
  destruct c as [|a l r]; cbn [push_child].
  - intros E. inversion E. now constructor.
  - destruct (__bool__ a) eqn:Hb.
    + intros E. bind_inv E. bind_inv E. inversion E.
      now apply (child_pushed_present field func v (TreapVertex a l r) x x0).
    + intros E. inversion E. now constructor.
Qed.

(** C3, amended.  On a vertex that is true and has the lazy field
    registered, [push(field=v)] sets the vertex's own [field] to
    [reverse_func(field, v)] and, in the same call, sets the own [field]
    of each child that is true to [func(field, v)], computed from the
    child's old value; a child that is false is left alone, and nothing
    else is stored. *)
Theorem push_sets_own_and_children_fields (a : attrs T)
    (l r l' r' : vertex T) (field : string) (func rev : pyfun T)
    (v x x' : pyval T) :
  __bool__ a = true ->
  dict_get (__lazy_calls a) field = Some (lazy_wrapper field func rev) ->
  __getattr__ a field = Ok x ->
  rev x v = Ok x' ->
  child_pushed field func v l l' ->
  child_pushed field func v r r' ->
  push (TreapVertex a l r) [(field, v)]
  = Ok (TreapVertex (__setattr__ a field x') l' r').
Proof.
  intros Hb Hreg Hx Hrev Hl Hr.
  unfold push. rewrite Hb. cbn [push_loop lazy_calls_of]. rewrite Hreg.
  cbn [lazy_wrapper_call]. rewrite Hb, Hx. cbn [bind]. rewrite Hrev.
  cbn [bind].
  rewrite (child_pushed_sound _ _ _ _ _ Hl), (child_pushed_sound _ _ _ _ _ Hr).
  reflexivity.
Qed.

End LazyPush.

Lemma push_sets_own_and_children_fields_witness :
  push lazy_parent [("sum", Some 5)]
  = Ok (vertex_with 1 9 2 [("sum", Some 15)] lazy_sum_registry value_registry
          (vertex_with 2 4 1 [("sum", Some 9)] lazy_sum_registry
             value_registry absent absent)
          absent).
Proof.
  apply (push_sets_own_and_children_fields
           {| value := Some 1; _priority := 9; _size := 2;
              fields := [("sum", Some 10)];
              __lazy_calls := lazy_sum_registry;
              __func_calls := value_registry |}
           (left lazy_parent) absent
           (setattr (left lazy_parent) "sum" (Some 9)) absent
           "sum" add_func add_func (Some 5) (Some 10) (Some 15)).
  - reflexivity.
  - reflexivity.
  - reflexivity.
  - reflexivity.
  - apply (child_pushed_present "sum" add_func (Some 5) (left lazy_parent)
             (Some 4) (Some 9)); reflexivity.
  - apply child_pushed_absent. reflexivity.
Defined.

(** ** Registration *)

Section Registration.
Context {T : Type} `{VertexComputable T} {pytype : Type}.


End Registration.

(** ** What push leaves alone *)

Section PushFrame.
Context {T : Type} `{VertexComputable T}.

Lemma frozen_refl (a : attrs T) : frozen a a.
Proof. repeat split. Qed.

Lemma frozen_trans (a1 a2 a3 : attrs T) :
  frozen a1 a2 -> frozen a2 a3 -> frozen a1 a3.
Proof.
  intros (P1 & S1 & L1 & F1) (P2 & S2 & L2 & F2).
  repeat split; congruence.
Qed.

Lemma frozen_setattr (a : attrs T) (f : string) (y : pyval T) :
  frozen a (__setattr__ a f y).
Proof.
  unfold __setattr__. destruct (String.eqb f "value"); repeat split.
Qed.

Lemma touched_refl (c : vertex T) : touched c c.
Proof.
  destruct c; simpl; auto.
  split; [apply frozen_refl|]. split; [auto|split; reflexivity].
Qed.

Lemma bool_frozen_false (a a' : attrs T) :
  (__bool__ a = false -> a' = a) -> __bool__ a' = true -> __bool__ a = true.
Proof.
  intros Hk Hb. destruct (__bool__ a) eqn:E; auto.
  rewrite (Hk eq_refl) in Hb. congruence.
Qed.

Lemma touched_trans (c1 c2 c3 : vertex T) :
  touched c1 c2 -> touched c2 c3 -> touched c1 c3.
Proof.
  destruct c1 as [|a1 l1 r1], c2 as [|a2 l2 r2], c3 as [|a3 l3 r3];
    simpl; try tauto.
  intros (F1 & K1 & L1 & R1) (F2 & K2 & L2 & R2).
  split; [eapply frozen_trans; eauto|].
  split; [|split; congruence].
  intros Hb. pose proof (K1 Hb) as E1. subst a2. auto.
Qed.

Lemma push_child_touched (f : string) (func : pyfun T) (v : pyval T)
    (c c' : vertex T) :
  push_child f func v c = Ok c' -> touched c c'.
Proof.
  destruct c as [|a l r]; cbn [push_child].
  - intros E. inversion E. exact I.
  - destruct (__bool__ a) eqn:Hb.
    + intros E. bind_inv E. bind_inv E. inversion E. simpl.
      split; [apply frozen_setattr|].
      split; [congruence|split; reflexivity].
    + intros E. inversion E. apply touched_refl.
Qed.

Lemma pushed_refl (v : vertex T) : pushed v v.
Proof.
  destruct v; simpl; auto.
  split; [|split; [|split]]; auto using frozen_refl, touched_refl.
Qed.

Lemma pushed_trans (v1 v2 v3 : vertex T) :
  pushed v1 v2 -> pushed v2 v3 -> pushed v1 v3.
Proof.
  destruct v1 as [|a1 l1 r1], v2 as [|a2 l2 r2], v3 as [|a3 l3 r3];
    simpl; try tauto.
  intros (F1 & K1 & L1 & R1) (F2 & K2 & L2 & R2).
  split; [|split; [|split]]; eauto using frozen_trans, touched_trans.
  intros Hb. pose proof (K1 Hb) as E1. subst a2. auto.
Qed.

Lemma lazy_wrapper_call_pushed (f : string) (func rev : pyfun T)
    (self self' : vertex T) (v : pyval T) :
  lazy_wrapper_call f func rev self v = Ok self' -> pushed self self'.
Proof.
  destruct self as [|a l r]; cbn [lazy_wrapper_call]; [discriminate|].
  intros E. bind_inv E. bind_inv E. bind_inv E. inversion E; subst.
  simpl. split; [|split; [|split; eauto using push_child_touched]].
  - destruct (__bool__ a).
    + bind_inv Hx. bind_inv Hx. inversion Hx. apply frozen_setattr.
    + inversion Hx. apply frozen_refl.
  - intros Hb. rewrite Hb in Hx. now inversion Hx.
Qed.

Lemma push_loop_pushed (kwargs : dict (pyval T)) (self self' : vertex T) :
  push_loop self kwargs = Ok self' -> pushed self self'.
Proof.
  revert self. induction kwargs as [|[attr v] rest IH]; intros self; simpl.
  - intros E. inversion E. apply pushed_refl.
  - destruct (dict_get (lazy_calls_of self) attr) as [[f func rev]|]; auto.
    intros E. bind_inv E.
    eapply pushed_trans; eauto using lazy_wrapper_call_pushed.
Qed.

Lemma push_pushed (self self' : vertex T) (kwargs : dict (pyval T)) :
  push self kwargs = Ok self' -> pushed self self'.
Proof.
  destruct self as [|a l r]; cbn [push]; [discriminate|].
  destruct (__bool__ a).
  - apply push_loop_pushed.
  - intros E. inversion E. apply pushed_refl.
Qed.

End PushFrame.

(** ** What split returns *)

Section SplitShape.
Context {T : Type} `{VertexComputable T}.

Lemma len_nonneg (a : attrs T) : 0 <= __len__ a.
Proof.
  unfold __len__, __bool__.
  destruct (0 <? _size a) eqn:E; simpl; [|lia].
  apply Z.ltb_lt in E. destruct (value a); lia.
Qed.

Lemma slot_len_nonneg (c : vertex T) : 0 <= slot_len c.
Proof. destruct c; simpl; [lia | apply len_nonneg]. Qed.

Lemma len_slot_len (c : vertex T) (n : Z) : len c = Ok n -> slot_len c = n.
Proof. destruct c; simpl; [discriminate|]. intros E. now inversion E. Qed.

Lemma len_true (a : attrs T) : __bool__ a = true -> __len__ a = _size a.
Proof. intros Hb. unfold __len__. now rewrite Hb. Qed.

Lemma touched_slot_len (c c' : vertex T) :
  touched c c' -> slot_len c' <= slot_len c.
Proof.
  destruct c as [|a l r], c' as [|a' l' r']; simpl; try tauto; [lia|].
  intros ((_ & Hs & _) & Hk & _).
  unfold __len__. destruct (__bool__ a') eqn:Hb'.
  - rewrite (bool_frozen_false _ _ Hk Hb'). lia.
  - destruct (__bool__ a) eqn:Hb; [|lia].
    unfold __bool__ in Hb. apply andb_true_iff in Hb.
    destruct Hb as [Hb _]. apply Z.ltb_lt in Hb. lia.
Qed.

Lemma sizes_cover_touched (c c' : vertex T) :
  touched c c' -> sizes_cover c = true -> sizes_cover c' = true.
Proof.
  destruct c as [|a l r], c' as [|a' l' r']; simpl; try tauto.
  intros ((_ & Hs & _) & Hk & -> & ->).
  rewrite !andb_true_iff. intros [[Hc Hl] Hr]. repeat split; auto.
  destruct (__bool__ a') eqn:Hb'; auto.
  rewrite (bool_frozen_false _ _ Hk Hb') in Hc. now rewrite Hs.
Qed.

Lemma split_rec_results_are_vertices (d : nat) :
  forall (self : vertex T) (key add : Z) (args : list string)
         (kwargs : dict (pyval T)) (lres rres self' : vertex T),
    split_rec d self key add args kwargs = Ok (lres, rres, self') ->
    lres <> PyNone /\ rres <> PyNone /\ self' <> PyNone.
Proof.
  induction d as [|d IH]; intros self key add args kwargs lres rres self'.
  - destruct self; simpl; discriminate.
  - destruct self as [|a0 l0 r0]; [simpl; discriminate|].
    cbn [split_rec].
    destruct (__bool__ a0); cbn [negb].
    2:{ intros E. inversion E; subst. repeat split; discriminate. }
    intros E. bind_inv E. destruct x as [|a l r]; [discriminate|].
    bind_inv E.
    assert (Hu : forall v w, update (TreapVertex a v r) args = Ok w ->
                             w <> PyNone).
    { intros v w Hw. apply update_later in Hw. destruct w; [contradiction|].
      discriminate. }
    assert (Hu' : forall v w, update (TreapVertex a l v) args = Ok w ->
                              w <> PyNone).
    { intros v w Hw. apply update_later in Hw. destruct w; [contradiction|].
      discriminate. }
    destruct (x + add <=? key).
    + bind_inv E. destruct x0 as [[left_ mid] l'].
      bind_inv E. inversion E; subst.
      destruct (IH _ _ _ _ _ _ _ _ Hx1) as (Hl & _ & _).
      repeat split; eauto.
    + bind_inv E. destruct x0 as [[mid right_] r'].
      bind_inv E. inversion E; subst.
      destruct (IH _ _ _ _ _ _ _ _ Hx1) as (_ & Hr & _).
      repeat split; eauto.
Qed.

Lemma split_rec_returns_self (d : nat) (self : vertex T) (key add : Z)
    (args : list string) (kwargs : dict (pyval T))
    (lres rres self' : vertex T) :
  split_rec d self key add args kwargs = Ok (lres, rres, self') ->
  lres = self' \/ rres = self'.
Proof.
  destruct d as [|d]; [destruct self; simpl; discriminate|].
  destruct self as [|a0 l0 r0]; [simpl; discriminate|].
  cbn [split_rec].
  destruct (__bool__ a0); cbn [negb].
  2:{ intros E. inversion E; subst. now left. }
  intros E. bind_inv E. destruct x as [|a l r]; [discriminate|].
  bind_inv E.
  destruct (x + add <=? key).
  - bind_inv E. destruct x0 as [[left_ mid] l'].
    bind_inv E. inversion E; subst. now right.
  - bind_inv E. destruct x0 as [[mid right_] r'].
    bind_inv E. inversion E; subst. now left.
Qed.

(** Once [add] exceeds [key] the recursion only goes right: the vertex
    comes back as the left result and the right result is false. *)
Lemma split_rec_right_chain (d : nat) :
  forall (self : vertex T) (key add : Z) (args : list string)
         (kwargs : dict (pyval T)) (lres rres self' : vertex T),
    key < add ->
    split_rec d self key add args kwargs = Ok (lres, rres, self') ->
    lres = self' /\ truth rres = false.
Proof.
  induction d as [|d IH]; intros self key add args kwargs lres rres self' Hk.
  - destruct self; simpl; discriminate.
  - destruct self as [|a0 l0 r0]; [simpl; discriminate|].
    cbn [split_rec].
    destruct (__bool__ a0) eqn:Hb0; cbn [negb].
    2:{ intros E. inversion E; subst. split; auto. }
    intros E. bind_inv E. destruct x as [|a l r]; [discriminate|].
    bind_inv E. rename x into nl.
    pose proof (slot_len_nonneg l) as Hn.
    rewrite (len_slot_len _ _ Hx0) in Hn.
    destruct (nl + add <=? key) eqn:Hc; [apply Z.leb_le in Hc; lia|].
    bind_inv E. destruct x as [[mid right_] r'].
    bind_inv E. inversion E; subst.
    split; auto.
    eapply (IH r key (add + nl + 1)); [lia | exact Hx1].
Qed.

(** While the vertex and what is left of it lie at or before [key], and
    no size is too small, the recursion only goes left: the left result is
    false and the vertex comes back as the right result. *)
Lemma split_rec_left_chain (d : nat) :
  forall (self : vertex T) (key add : Z) (args : list string)
         (kwargs : dict (pyval T)) (lres rres self' : vertex T),
    sizes_cover self = true ->
    slot_len self + add <= key ->
    split_rec d self key add args kwargs = Ok (lres, rres, self') ->
    truth lres = false /\ rres = self'.
Proof.
  induction d as [|d IH];
    intros self key add args kwargs lres rres self' Hs Hk.
  - destruct self; simpl; discriminate.
  - destruct self as [|a0 l0 r0]; [simpl; discriminate|].
    cbn [split_rec].
    destruct (__bool__ a0) eqn:Hb0; cbn [negb].
    2:{ intros E. inversion E; subst. split; auto. }
    intros E. bind_inv E. destruct x as [|a l r]; [discriminate|].
    bind_inv E. rename x into nl.
    apply push_pushed in Hx. simpl in Hx.
    destruct Hx as (_ & _ & Tl & _).
    simpl in Hs, Hk. rewrite Hb0 in Hs. rewrite !andb_true_iff in Hs.
    destruct Hs as [[Hc Hsl] Hsr]. apply Z.leb_le in Hc.
    rewrite (len_true _ Hb0) in Hk.
    pose proof (touched_slot_len _ _ Tl) as Hle.
    rewrite (len_slot_len _ _ Hx0) in Hle.
    pose proof (slot_len_nonneg r0) as Hr0.
    destruct (nl + add <=? key) eqn:Hcmp; [|apply Z.leb_gt in Hcmp; lia].
    bind_inv E. destruct x as [[left_ mid] l'].
    bind_inv E. inversion E; subst.
    split; auto.
    eapply (IH l key add); [| |exact Hx].
    + eapply sizes_cover_touched; eauto.
    + rewrite (len_slot_len _ _ Hx0). lia.
Qed.

Lemma split_rec_whole_or_nothing (d : nat) (t : vertex T) (key add : Z)
    (args : list string) (kwargs : dict (pyval T))
    (lres rres t' : vertex T) :
  sizes_cover t = true ->
  split_rec d t key add args kwargs = Ok (lres, rres, t') ->
  (truth lres = false /\ rres = t') \/ (lres = t' /\ truth rres = false).
Proof.
  intros Hs. destruct d as [|d]; [destruct t; simpl; discriminate|].
  destruct t as [|a0 l0 r0]; [simpl; discriminate|].
  cbn [split_rec].
  destruct (__bool__ a0) eqn:Hb0; cbn [negb].
  2:{ intros E. inversion E; subst. left. split; auto. }
  intros E. bind_inv E. destruct x as [|a l r]; [discriminate|].
  bind_inv E. rename x into nl.
  apply push_pushed in Hx. simpl in Hx. destruct Hx as (_ & _ & Tl & Tr).
  simpl in Hs. rewrite !andb_true_iff in Hs. destruct Hs as [[_ Hsl] Hsr].
  pose proof (slot_len_nonneg l) as Hn.
  rewrite (len_slot_len _ _ Hx0) in Hn.
  destruct (nl + add <=? key) eqn:Hcmp.
  - apply Z.leb_le in Hcmp.
    bind_inv E. destruct x as [[left_ mid] l'].
    bind_inv E. inversion E; subst. left. split; auto.
    eapply (split_rec_left_chain d l key add); [| |exact Hx].
    + eapply sizes_cover_touched; eauto.
    + rewrite (len_slot_len _ _ Hx0). lia.
  - bind_inv E. destruct x as [[mid right_] r'].
    bind_inv E. inversion E; subst. right. split; auto.
    eapply (split_rec_right_chain d r key (add + nl + 1)); [lia|exact Hx].
Qed.

End SplitShape.

(** ** What update computes, and when it cannot *)

Section UpdateFacts.
Context {T : Type} `{VertexComputable T}.

Lemma update_all_value_func_raises (calls : dict (func_call T)) (k : string)
    (vf : option value_callable) :
  vf <> Some returns_for_self ->
  In (k, value_func vf) calls ->
  forall self : vertex T, raises (update_all self calls) = true.
Proof.
  intros Hvf.
  induction calls as [|[k0 c0] rest IH]; intros Hin self; [contradiction|].
  cbn [update_all].
  destruct Hin as [E | Hin].
  - inversion E; subst.
    destruct vf as [[|e]|]; [congruence|reflexivity|reflexivity].
  - destruct (call_func c0 self) as [s1|e]; cbn [bind]; auto.
Qed.

Lemma update_value_func_raises (a : attrs T) (l r : vertex T)
    (args : list string) (k : string) (vf : option value_callable) :
  __bool__ a = true ->
  vf <> Some returns_for_self ->
  In (k, value_func vf) (__func_calls a) ->
  raises (update (TreapVertex a l r) args) = true.
Proof.
  intros Hb Hvf Hin. unfold update. rewrite Hb.
  destruct (len l) as [nl|e]; cbn [bind]; auto.
  destruct (len r) as [nr|e]; cbn [bind]; auto.
  destruct (update_named _ args) as [s1|e]; cbn [bind]; auto.
  eapply update_all_value_func_raises; eauto.
Qed.

Lemma split_rec_value_func_raises (d : nat) (a : attrs T) (l r : vertex T)
    (key add : Z) (args : list string) (kwargs : dict (pyval T))
    (k : string) (vf : option value_callable) :
  __bool__ a = true ->
  __lazy_calls a = [] ->
  vf <> Some returns_for_self ->
  In (k, value_func vf) (__func_calls a) ->
  raises (split_rec d (TreapVertex a l r) key add args kwargs) = true.
Proof.
  intros Hb Hl Hvf Hin. destruct d as [|d]; [reflexivity|].
  cbn [split_rec]. rewrite Hb. cbn [negb].
  unfold push. rewrite Hb. rewrite push_loop_no_lazy by exact Hl.
  cbn [bind].
  destruct (len l) as [nl|e]; cbn [bind]; auto.
  destruct (nl + add <=? key).
  - destruct (split_rec d l key add [] kwargs) as [[[left_ mid] l']|e];
      cbn [bind]; auto.
    pose proof (update_value_func_raises a l' r args k vf Hb Hvf Hin) as Hu.
    destruct (update (TreapVertex a l' r) args); [discriminate|reflexivity].
  - destruct (split_rec d r key (add + nl + 1) [] kwargs)
      as [[[mid right_] r']|e]; cbn [bind]; auto.
    pose proof (update_value_func_raises a l r' args k vf Hb Hvf Hin) as Hu.
    destruct (update (TreapVertex a l r') args); [discriminate|reflexivity].
Qed.

(** *** The fields after update *)

Lemma getattr_setattr_same (a : attrs T) (f : string) (y : pyval T) :
  __getattr__ (__setattr__ a f y) f = Ok y.
Proof.
  unfold __getattr__, __setattr__.
  destruct (String.eqb f "value") eqn:E; simpl.
  - reflexivity.
  - now rewrite dict_get_set_same.
Qed.

Lemma getattr_setattr_other (a : attrs T) (f k : string) (y : pyval T) :
  f <> k -> __getattr__ (__setattr__ a f y) k = __getattr__ a k.
Proof.
  intros Hfk. unfold __getattr__, __setattr__.
  destruct (String.eqb f "value") eqn:E; simpl.
  - apply String.eqb_eq in E. subst f.
    destruct (String.eqb k "value") eqn:Ek; auto.
    apply String.eqb_eq in Ek. congruence.
  - destruct (String.eqb k "value"); auto.
    now rewrite dict_get_set_other.
Qed.

Lemma size_setattr (a : attrs T) (f : string) (y : pyval T) :
  _size (__setattr__ a f y) = _size a.
Proof. unfold __setattr__. now destruct (String.eqb f "value"). Qed.

Lemma func_wrapper_call_true (f : string) (func : pyfun T) (a : attrs T)
    (l r s' : vertex T) :
  func_wrapper_call f func (TreapVertex a l r) = Ok s' ->
  truth s' = true ->
  exists y, aggregate f func l r = Ok y /\
            s' = TreapVertex (__setattr__ a f y) l r.
Proof.
  cbn [func_wrapper_call]. destruct (__bool__ a) eqn:Hb.
  - intros E _. unfold aggregate.
    do 5 bind_inv E. inversion E; subst.
    exists x3. rewrite Hx. cbn [bind]. rewrite Hx0. cbn [bind].
    rewrite Hx1. cbn [bind]. rewrite Hx2. cbn [bind]. auto.
  - intros E Ht. inversion E; subst. simpl in Ht. congruence.
Qed.

Lemma call_func_true (c : func_call T) (s s' : vertex T) :
  call_func c s = Ok s' -> truth s' = true -> truth s = true.
Proof.
  intros E Ht. apply call_func_later in E.
  destruct s as [|a l r], s' as [|a' l' r']; simpl in *; try tauto.
Qed.

Lemma update_all_true (calls : dict (func_call T)) (s s' : vertex T) :
  update_all s calls = Ok s' -> truth s' = true -> truth s = true.
Proof.
  intros E Ht. apply update_all_later in E.
  destruct s as [|a l r], s' as [|a' l' r']; simpl in *; try tauto.
Qed.

Lemma update_named_true (args : list string) (s s' : vertex T) :
  update_named s args = Ok s' -> truth s' = true -> truth s = true.
Proof.
  intros E Ht. apply update_named_later in E.
  destruct s as [|a l r], s' as [|a' l' r']; simpl in *; try tauto.
Qed.

(** A call of a registered function on a vertex that stays true keeps
    the children and the size, and every field but its own. *)
Lemma call_func_frame (k : string) (c : func_call T) (a : attrs T)
    (l r s' : vertex T) :
  call_func c (TreapVertex a l r) = Ok s' ->
  truth s' = true ->
  exists a', s' = TreapVertex a' l r /\ _size a' = _size a /\
    __func_calls a' = __func_calls a /\
    match c with
    | value_func _ => a' = a
    | func_wrapper f func =>
        (exists y, aggregate f func l r = Ok y /\ __getattr__ a' f = Ok y) /\
        (forall g, f <> g -> __getattr__ a' g = __getattr__ a g)
    end.
Proof.
  destruct c as [[[|e]|]|f func]; cbn [call_func]; try discriminate.
  { intros E _. inversion E; subst. exists a. repeat split. }
  intros E Ht. destruct (func_wrapper_call_true _ _ _ _ _ _ E Ht) as (y & Hy & ->).
  eexists. split; [reflexivity|]. split; [apply size_setattr|].
  split; [unfold __setattr__; now destruct (String.eqb f "value")|].
  split.
  - exists y. split; auto. apply getattr_setattr_same.
  - intros g Hg. now apply getattr_setattr_other.
Qed.

Lemma update_all_frame (calls : dict (func_call T)) :
  forall (a : attrs T) (l r s' : vertex T),
    update_all (TreapVertex a l r) calls = Ok s' ->
    truth s' = true ->
    keyed_by_field calls ->
    NoDup (map fst calls) ->
    exists a', s' = TreapVertex a' l r /\ _size a' = _size a /\
      __func_calls a' = __func_calls a /\
      (forall g, ~ In g (map fst calls) -> __getattr__ a' g = __getattr__ a g) /\
      (forall f func, In (f, func_wrapper f func) calls ->
         exists y, aggregate f func l r = Ok y /\ __getattr__ a' f = Ok y).
Proof.
  induction calls as [|[k0 c0] rest IH]; intros a l r s' E Ht Hk Hd.
  - cbn in E. inversion E; subst. exists a. repeat split; auto.
    intros f func [].
  - cbn [update_all] in E. bind_inv E. rename x into s1.
    pose proof (update_all_true _ _ _ E Ht) as Ht1.
    destruct (call_func_frame k0 _ _ _ _ _ Hx Ht1)
      as (a1 & -> & Hs1 & Hf1 & Hc).
    inversion Hk as [|? ? Hk0 Hkr]; subst. inversion Hd as [|? ? Hn0 Hdr]; subst.
    destruct (IH _ _ _ _ E Ht Hkr Hdr) as (a' & -> & Hs & Hf & Hrest & Hw).
    assert (Hrest' : forall g, ~ In g (map fst ((k0, c0) :: rest)) ->
                       __getattr__ a' g = __getattr__ a1 g).
    { intros g Hg. apply Hrest. simpl in Hg. tauto. }
    exists a'. split; [reflexivity|]. split; [congruence|].
    split; [congruence|].
    destruct c0 as [vf|f0 func0].
    { subst a1. split; [exact Hrest'|].
      intros f func [Ein | Hin]; [discriminate | now apply Hw]. }
    simpl in Hk0. subst f0. destruct Hc as [(y0 & Hy0 & Hget0) Hother].
    split.
    + intros g Hg. simpl in Hg.
      rewrite Hrest by tauto. apply Hother. intros ->. tauto.
    + intros f func [Ein | Hin].
      * inversion Ein; subst. exists y0. split; auto.
        rewrite Hrest by exact Hn0. exact Hget0.
      * apply Hw. exact Hin.
Qed.

Lemma update_named_frame (args : list string) :
  forall (a : attrs T) (l r s' : vertex T),
    update_named (TreapVertex a l r) args = Ok s' ->
    truth s' = true ->
    exists a', s' = TreapVertex a' l r /\ _size a' = _size a /\
      __func_calls a' = __func_calls a.
Proof.
  induction args as [|attr rest IH]; intros a l r s' E Ht.
  - cbn in E. inversion E; subst. eauto.
  - cbn [update_named func_calls_of] in E.
    destruct (dict_get (__func_calls a) attr) as [c|]; [|eauto].
    destruct c as [[g|]|f func]; [|eauto|];
      bind_inv E; rename x into s1;
      pose proof (update_named_true _ _ _ E Ht) as Ht1;
      destruct (call_func_frame attr _ _ _ _ _ Hx Ht1)
        as (a1 & -> & Hs1 & Hf1 & _);
      destruct (IH _ _ _ _ E Ht) as (a' & -> & Hs & Hf);
      exists a'; repeat split; congruence.
Qed.

End UpdateFacts.

(** ** What merge returns *)

Section MergeFacts.
Context {T : Type} `{VertexComputable T}.

Lemma push_nil (a : attrs T) (l r : vertex T) :
  push (TreapVertex a l r) [] = Ok (TreapVertex a l r).
Proof. unfold push. now destruct (__bool__ a). Qed.

Lemma inorder_false (a : attrs T) (l r : vertex T) :
  __bool__ a = false -> inorder (TreapVertex a l r) = [].
Proof. intros Hb. simpl. now rewrite Hb. Qed.

Lemma inorder_true (a : attrs T) (l r : vertex T) :
  __bool__ a = true ->
  inorder (TreapVertex a l r) = (inorder l ++ a :: inorder r)%list.
Proof. intros Hb. simpl. now rewrite Hb. Qed.

Lemma merge_rec_inorder (d : nat) :
  forall (self l r : vertex T) (args : list string) (m self' : vertex T),
    merge_rec d self l r args [] = Ok (m, self') ->
    inorder m = (inorder l ++ inorder r)%list.
Proof.
  induction d as [|d IH]; intros self l r args m self'; [simpl; discriminate|].
  cbn [merge_rec].
  destruct l as [|al ll lr]; [simpl; discriminate|].
  destruct r as [|ar rl rr]; [rewrite push_nil; simpl; discriminate|].
  rewrite !push_nil. cbn [bind].
  destruct (__bool__ al) eqn:Bl; destruct (__bool__ ar) eqn:Br;
    cbn [negb orb].
  2:{ intros E. inversion E; subst.
      rewrite (inorder_false ar) by exact Br. now rewrite app_nil_r. }
  2,3: intros E; inversion E; subst;
       now rewrite (inorder_false al) by exact Bl.
  destruct (_priority al >? _priority ar).
  - intros E. bind_inv E. destruct x as [m' s1]. inversion E; subst.
    rewrite !(inorder_true al) by exact Bl.
    rewrite (IH _ _ _ _ _ _ Hx). now rewrite <- app_assoc.
  - intros E. bind_inv E. destruct x as [m' s1]. bind_inv E.
    inversion E; subst.
    rewrite !(inorder_true ar) by exact Br.
    rewrite (IH _ _ _ _ _ _ Hx). now rewrite <- app_assoc.
Qed.

Lemma merge_rec_returns (d : nat) :
  forall (sa : attrs T) (sl sr l r : vertex T) (args : list string),
    __bool__ sa = false ->
    ends_in_vertices l = true ->
    ends_in_vertices r = true ->
    (height l + height r < d)%nat ->
    exists m, merge_rec d (TreapVertex sa sl sr) l r args []
              = Ok (m, TreapVertex sa sl sr).
Proof.
  induction d as [|d IH]; intros sa sl sr l r args Hs Hl Hr Hd; [lia|].
  cbn [merge_rec].
  destruct l as [|al ll lr]; [discriminate|].
  destruct r as [|ar rl rr]; [discriminate|].
  rewrite !push_nil. cbn [bind].
  destruct (__bool__ al) eqn:Bl; destruct (__bool__ ar) eqn:Br;
    cbn [negb orb]; eauto.
  simpl in Hl, Hr. rewrite Bl in Hl. rewrite Br in Hr.
  apply andb_true_iff in Hl, Hr. destruct Hl as [Hll Hlr], Hr as [Hrl Hrr].
  destruct (_priority al >? _priority ar).
  - destruct (IH sa sl sr lr (TreapVertex ar rl rr) args Hs Hlr) as [m' Hm'].
    + simpl. now rewrite Br, Hrl, Hrr.
    + simpl in Hd |- *. lia.
    + rewrite Hm'. cbn [bind]. eauto.
  - destruct (IH sa sl sr (TreapVertex al ll lr) rl args Hs) as [m' Hm'].
    + simpl. now rewrite Bl, Hll, Hlr.
    + exact Hrl.
    + simpl in Hd |- *. lia.
    + rewrite Hm'. cbn [bind]. rewrite update_absent by exact Hs.
      cbn [bind]. eauto.
Qed.

End MergeFacts.

(** ** Further properties of split *)

Section SplitProperties.
Context {T : Type} `{VertexComputable T}.

Lemma merge_rec_one_false (d : nat) (self : vertex T) (al ar : attrs T)
    (ll lr rl rr : vertex T) (args : list string) :
  __bool__ al = false \/ __bool__ ar = false ->
  merge_rec (S d) self (TreapVertex al ll lr) (TreapVertex ar rl rr) args []
  = Ok ((if __bool__ al then TreapVertex al ll lr else TreapVertex ar rl rr),
        self).
Proof.
  intros Hf. cbn [merge_rec]. rewrite !push_nil. cbn [bind].
  destruct Hf as [Hf | Hf]; rewrite Hf; cbn [negb orb];
    [reflexivity | now rewrite orb_true_r].
Qed.

Lemma split_returns_all_or_nothing_aux (t : vertex T) (key add : Z)
    (args : list string) (kwargs : dict (pyval T)) (lres rres t' : vertex T) :
  sizes_cover t = true ->
  split t key add args kwargs = Ok (lres, rres, t') ->
  (truth lres = false /\ rres = t') \/ (lres = t' /\ truth rres = false).
Proof.
  rewrite split_unfold. intros Hs E.
  eapply split_rec_whole_or_nothing; eauto.
Qed.

Lemma subvertex_refl (t : vertex T) : subvertex t t.
Proof. destruct t; simpl; auto. Qed.

Lemma call_func_keeps_children (c : func_call T) (a : attrs T)
    (l r s' : vertex T) :
  call_func c (TreapVertex a l r) = Ok s' ->
  exists a', s' = TreapVertex a' l r.
Proof.
  destruct c as [[[|e]|]|f func]; cbn [call_func func_wrapper_call];
    try discriminate.
  - intros E. inversion E. eauto.
  - destruct (__bool__ a).
    + intros E. do 5 bind_inv E. inversion E. eauto.
    + intros E. inversion E. eauto.
Qed.

Lemma update_all_keeps_children (calls : dict (func_call T)) :
  forall (a : attrs T) (l r s' : vertex T),
    update_all (TreapVertex a l r) calls = Ok s' ->
    exists a', s' = TreapVertex a' l r.
Proof.
  induction calls as [|[k c] rest IH]; intros a l r s' E.
  - cbn in E. inversion E. eauto.
  - cbn [update_all] in E. bind_inv E.
    destruct (call_func_keeps_children _ _ _ _ _ Hx) as [a1 ->]. eauto.
Qed.

Lemma update_named_keeps_children (args : list string) :
  forall (a : attrs T) (l r s' : vertex T),
    update_named (TreapVertex a l r) args = Ok s' ->
    exists a', s' = TreapVertex a' l r.
Proof.
  induction args as [|attr rest IH]; intros a l r s' E.
  - cbn in E. inversion E. eauto.
  - cbn [update_named func_calls_of] in E.
    destruct (dict_get (__func_calls a) attr) as [c|]; [|eauto].
    destruct c as [[g|]|f func]; [|eauto|];
      bind_inv E;
      destruct (call_func_keeps_children _ _ _ _ _ Hx) as [a1 ->]; eauto.
Qed.

Lemma update_keeps_children (a : attrs T) (l r s' : vertex T)
    (args : list string) :
  update (TreapVertex a l r) args = Ok s' ->
  exists a', s' = TreapVertex a' l r.
Proof.
  unfold update. destruct (__bool__ a).
  - intros E. do 3 bind_inv E.
    destruct (update_named_keeps_children _ _ _ _ _ Hx1) as [a1 ->].
    eapply update_all_keeps_children; eauto.
  - intros E. inversion E. eauto.
Qed.

Lemma split_rec_subvertex (d : nat) :
  forall (self : vertex T) (key add : Z) (args : list string)
         (kwargs : dict (pyval T)) (lres rres self' : vertex T),
    split_rec d self key add args kwargs = Ok (lres, rres, self') ->
    subvertex lres self' /\ subvertex rres self'.
Proof.
  induction d as [|d IH]; intros self key add args kwargs lres rres self'.
  - destruct self; simpl; discriminate.
  - destruct self as [|a0 l0 r0]; [simpl; discriminate|].
    cbn [split_rec].
    destruct (__bool__ a0); cbn [negb].
    2:{ intros E. inversion E; subst. split; apply subvertex_refl. }
    intros E. bind_inv E. destruct x as [|a l r]; [discriminate|].
    bind_inv E.
    destruct (x + add <=? key).
    + bind_inv E. destruct x0 as [[left_ mid] l'].
      bind_inv E. inversion E; subst.
      destruct (IH _ _ _ _ _ _ _ _ Hx1) as [Hl _].
      destruct (update_keeps_children _ _ _ _ _ Hx2) as [a2 ->].
      split; [|apply subvertex_refl].
      simpl. right. left. exact Hl.
    + bind_inv E. destruct x0 as [[mid right_] r'].
      bind_inv E. inversion E; subst.
      destruct (IH _ _ _ _ _ _ _ _ Hx1) as [_ Hr].
      destruct (update_keeps_children _ _ _ _ _ Hx2) as [a2 ->].
      split; [apply subvertex_refl|].
      simpl. right. right. exact Hr.
Qed.


(** X2.  [split] never cuts.  When no [_size] is too small, one of the two
    returned vertices is false (an empty part) and the other is the whole
    vertex [split] was called on, whatever the cut index. *)
Theorem split_returns_all_or_nothing (t : vertex T) (key add : Z)
    (args : list string) (kwargs : dict (pyval T)) (lres rres t' : vertex T) :
  sizes_cover t = true ->
  split t key add args kwargs = Ok (lres, rres, t') ->
  (truth lres = false /\ rres = t') \/ (lres = t' /\ truth rres = false).
Proof. apply split_returns_all_or_nothing_aux. Qed.

(** X3.  Merging the two results of a [split] gives back the vertex that was
    split, in the state [split] left it in, when that vertex is still
    true: one of the two results is false, and [merge] returns the
    other. *)
Theorem merge_of_split_returns_the_vertex (self t : vertex T) (key add : Z)
    (args args' : list string) (lres rres t' : vertex T) :
  sizes_cover t = true ->
  split t key add args [] = Ok (lres, rres, t') ->
  truth t' = true ->
  merge self lres rres args' [] = Ok (t', self).
Proof.
  intros Hs E Ht.
  pose proof (split_returns_all_or_nothing_aux _ _ _ _ _ _ _ _ Hs E) as Hc.
  rewrite split_unfold in E.
  destruct (split_rec_results_are_vertices _ _ _ _ _ _ _ _ _ E)
    as (Hnl & Hnr & _).
  clear E.
  rewrite merge_unfold, recursion_limit_pos.
  destruct lres as [|al ll lr]; [congruence|].
  destruct rres as [|ar rl rr]; [congruence|].
  rewrite merge_rec_one_false.
  - destruct Hc as [[Hl <-] | [<- Hr]].
    + simpl in Hl. now rewrite Hl.
    + simpl in Ht. now rewrite Ht.
  - destruct Hc as [[Hl _] | [_ Hr]]; [left; exact Hl | right; exact Hr].
Qed.

(** X4.  A vertex that is true, has no lazy field registered, and holds
    in [__func_calls] a [value_func] that is [None] (the default of
    [__init__]) or a callable that does not accept a single argument
    cannot be split: whatever its children, the cut index and the
    arguments, [split] raises. *)
Theorem split_raises_while_value_func_is_registered (a : attrs T)
    (l r : vertex T) (key add : Z) (args : list string)
    (kwargs : dict (pyval T)) (k : string) (vf : option value_callable) :
  __bool__ a = true ->
  __lazy_calls a = [] ->
  vf <> Some returns_for_self ->
  In (k, value_func vf) (__func_calls a) ->
  raises (split (TreapVertex a l r) key add args kwargs) = true.
Proof.
  intros Hb Hl Hvf Hin. rewrite split_unfold.
  eapply split_rec_value_func_raises; eauto.
Qed.

End SplitProperties.

(** ** Further properties of update, push, merge and computable *)

Section MoreProperties.
Context {T : Type} `{VertexComputable T}.

(** X5.  [update] cannot succeed on a vertex that is true while
    [__func_calls] holds a [value_func] that is [None] (the default of
    [__init__]) or a callable that does not accept a single argument: the
    [else] clause reaches that entry and calls it with the one argument
    [self], unless something raised before. *)
Theorem update_raises_while_value_func_is_registered (a : attrs T)
    (l r : vertex T) (args : list string) (k : string)
    (vf : option value_callable) :
  __bool__ a = true ->
  vf <> Some returns_for_self ->
  In (k, value_func vf) (__func_calls a) ->
  raises (update (TreapVertex a l r) args) = true.
Proof. apply update_value_func_raises. Qed.

Lemma update_frame (a : attrs T) (l r v' : vertex T) (args : list string) :
  keyed_by_field (__func_calls a) ->
  NoDup (map fst (__func_calls a)) ->
  update (TreapVertex a l r) args = Ok v' ->
  truth v' = true ->
  exists a', v' = TreapVertex a' l r /\
    len l = Ok (slot_len l) /\ len r = Ok (slot_len r) /\
    _size a' = slot_len l + slot_len r + 1 /\
    __func_calls a' = __func_calls a /\
    forall f func, In (f, func_wrapper f func) (__func_calls a) ->
      exists y, aggregate f func l r = Ok y /\ __getattr__ a' f = Ok y.
Proof.
  intros Hk Hd E Ht. unfold update in E.
  destruct (__bool__ a) eqn:Hb.
  2:{ inversion E; subst. simpl in Ht. congruence. }
  bind_inv E. rename x into nl. bind_inv E. rename x into nr.
  bind_inv E. rename x into s1.
  pose proof (update_all_true _ _ _ E Ht) as Ht1.
  destruct (update_named_frame _ _ _ _ _ Hx1 Ht1) as (a1 & -> & Hs1 & Hf1).
  destruct (update_all_frame _ _ _ _ _ E Ht Hk Hd)
    as (a' & -> & Hs & Hf & _ & Hw).
  exists a'. split; [reflexivity|].
  rewrite (len_slot_len _ _ Hx), (len_slot_len _ _ Hx0).
  repeat split; auto.
  - rewrite Hs, Hs1. reflexivity.
  - rewrite Hf, Hf1. reflexivity.
Qed.

(** X6.  What [update] is for.  When [update] returns on a vertex that is
    still true, whose registry holds each wrapper once under the field it
    writes, the children are untouched, [_size] is
    [len(left) + len(right) + 1], and every registered aggregate field
    holds [func(left.field or T_co(), right.field or T_co())]: the
    vertex's own value does not enter any of them. *)
Theorem update_recomputes_size_and_fields (a : attrs T) (l r v' : vertex T)
    (args : list string) :
  keyed_by_field (__func_calls a) ->
  NoDup (map fst (__func_calls a)) ->
  update (TreapVertex a l r) args = Ok v' ->
  truth v' = true ->
  exists a', v' = TreapVertex a' l r /\
    _size a' = slot_len l + slot_len r + 1 /\
    forall f func, In (f, func_wrapper f func) (__func_calls a) ->
      exists y, aggregate f func l r = Ok y /\ __getattr__ a' f = Ok y.
Proof.
  intros Hk Hd E Ht.
  destruct (update_frame _ _ _ _ _ Hk Hd E Ht)
    as (a' & -> & _ & _ & Hs & _ & Hw).
  eauto.
Qed.

Lemma dict_set_get_id {A : Type} (d : dict A) (k : string) (v : A) :
  dict_get d k = Some v -> dict_set d k v = d.
Proof.
  induction d as [|[k' v'] d IH]; simpl; [discriminate|].
  destruct (String.eqb k' k).
  - intros E. now inversion E.
  - intros E. now rewrite IH.
Qed.

Lemma dict_get_In {A : Type} (d : dict A) (k : string) (v : A) :
  dict_get d k = Some v -> In (k, v) d.
Proof.
  induction d as [|[k' v'] d IH]; simpl; [discriminate|].
  destruct (String.eqb k' k) eqn:Ek.
  - intros E. inversion E; subst. apply String.eqb_eq in Ek. subst. now left.
  - intros E. right. auto.
Qed.

Lemma setattr_getattr_id (a : attrs T) (f : string) (y : pyval T) :
  __getattr__ a f = Ok y -> __setattr__ a f y = a.
Proof.
  unfold __getattr__, __setattr__.
  destruct (String.eqb f "value").
  - intros E. inversion E. now destruct a.
  - destruct (dict_get (fields a) f) eqn:Ed; [|discriminate].
    intros E. inversion E; subst.
    rewrite (dict_set_get_id _ _ _ Ed). now destruct a.
Qed.

Lemma set_size_id (a : attrs T) : set_size a (_size a) = a.
Proof. now destruct a. Qed.

Lemma keyed_by_field_In (calls : dict (func_call T)) (k f : string)
    (func : pyfun T) :
  keyed_by_field calls -> In (k, func_wrapper f func) calls -> f = k.
Proof.
  intros Hk Hin. unfold keyed_by_field in Hk. rewrite Forall_forall in Hk.
  exact (Hk _ Hin).
Qed.

Lemma update_all_fixed (v : vertex T) (calls : dict (func_call T)) :
  (forall k c, In (k, c) calls -> call_func c v = Ok v) ->
  update_all v calls = Ok v.
Proof.
  induction calls as [|[k c] rest IH]; intros Hc; [reflexivity|].
  cbn [update_all]. rewrite (Hc k c) by now left. cbn [bind].
  apply IH. intros k' c' Hin. apply (Hc k'). now right.
Qed.

Lemma update_named_fixed (v : vertex T) (args : list string) :
  (forall k c, In (k, c) (func_calls_of v) -> call_func c v = Ok v) ->
  update_named v args = Ok v.
Proof.
  intros Hc. induction args as [|attr rest IH]; [reflexivity|].
  cbn [update_named].
  destruct (dict_get (func_calls_of v) attr) as [c|] eqn:Ed; [|exact IH].
  apply dict_get_In in Ed. pose proof (Hc _ _ Ed) as Hcall.
  destruct c as [[g|]|f func]; [|exact IH|];
    rewrite Hcall; cbn [bind]; exact IH.
Qed.

(** X7.  [update] is idempotent: a second [update], with any field names,
    gives the vertex the first one returned. *)
Theorem update_twice_is_update_once (a : attrs T) (l r v' : vertex T)
    (args args' : list string) :
  keyed_by_field (__func_calls a) ->
  NoDup (map fst (__func_calls a)) ->
  update (TreapVertex a l r) args = Ok v' ->
  truth v' = true ->
  update v' args' = Ok v'.
Proof.
  intros Hk Hd E Ht.
  assert (Hnv : forall k vf, In (k, value_func vf) (__func_calls a) ->
                 vf = Some returns_for_self).
  { intros k vf Hin.
    destruct (__bool__ a) eqn:Hb.
    - destruct vf as [[|e]|]; [reflexivity| |].
      + assert (Hne : Some (raises_for_self e) <> Some returns_for_self)
          by discriminate.
        pose proof (update_value_func_raises a l r args k _ Hb Hne Hin) as Hr.
        now rewrite E in Hr.
      + assert (Hne : @None value_callable <> Some returns_for_self)
          by discriminate.
        pose proof (update_value_func_raises a l r args k _ Hb Hne Hin) as Hr.
        now rewrite E in Hr.
    - unfold update in E. rewrite Hb in E. inversion E; subst.
      simpl in Ht. congruence. }
  destruct (update_frame _ _ _ _ _ Hk Hd E Ht)
    as (a' & -> & Hl & Hr & Hs & Hf & Hw).
  simpl in Ht.
  assert (Hc : forall k c, In (k, c) (__func_calls a') ->
                 call_func c (TreapVertex a' l r) = Ok (TreapVertex a' l r)).
  { intros k c Hin. rewrite Hf in Hin.
    destruct c as [vf|f func]; [now rewrite (Hnv _ _ Hin)|].
    pose proof (keyed_by_field_In _ _ _ _ Hk Hin). subst f.
    destruct (Hw _ _ Hin) as (y & Hy & Hg).
    cbn [call_func func_wrapper_call]. rewrite Ht.
    unfold aggregate in Hy.
    destruct (getattr l k) as [xl|]; [|discriminate]. cbn [bind] in *.
    destruct (or_T_co xl) as [xl'|]; [|discriminate]. cbn [bind] in *.
    destruct (getattr r k) as [xr|]; [|discriminate]. cbn [bind] in *.
    destruct (or_T_co xr) as [xr'|]; [|discriminate]. cbn [bind] in *.
    rewrite Hy. cbn [bind]. now rewrite (setattr_getattr_id _ _ _ Hg). }
  unfold update. rewrite Ht, Hl, Hr. cbn [bind].
  rewrite <- Hs, set_size_id.
  rewrite update_named_fixed by exact Hc. cbn [bind].
  apply update_all_fixed. exact Hc.
Qed.

(** X8.  A keyword that names no registered lazy field is ignored: [push]
    with only such keywords returns the vertex as it is, without an
    error. *)
Theorem push_ignores_unregistered_fields (a : attrs T) (l r : vertex T)
    (kwargs : dict (pyval T)) :
  (forall k, In k (map fst kwargs) -> dict_get (__lazy_calls a) k = None) ->
  push (TreapVertex a l r) kwargs = Ok (TreapVertex a l r).
Proof.
  intros Hn. unfold push. destruct (__bool__ a); [|reflexivity].
  induction kwargs as [|[k v] rest IH]; [reflexivity|].
  cbn [push_loop lazy_calls_of]. rewrite (Hn k) by now left.
  apply IH. intros k' Hin. apply Hn. now right.
Qed.

(** X9.  [push] reaches the vertex and its two children and nothing below
    them: the grandchildren are untouched, a child that was false is
    untouched, and no [_size], priority or registry changes anywhere. *)
Theorem push_reaches_only_direct_children (v v' : vertex T)
    (kwargs : dict (pyval T)) :
  push v kwargs = Ok v' -> pushed v v'.
Proof. apply push_pushed. Qed.

(** X10.  [merge] concatenates.  With no keyword arguments, a receiver that is
    false, trees that end in vertices that are false, and few enough
    levels for the recursion limit, [merge] returns, and the vertices of
    the result in order are those of [l] followed by those of [r], each
    with every attribute as it was: [merge] changes child slots only, and
    no [_size]. *)
Theorem merge_concatenates (sa : attrs T) (sl sr l r : vertex T)
    (args : list string) :
  __bool__ sa = false ->
  ends_in_vertices l = true ->
  ends_in_vertices r = true ->
  (height l + height r < recursion_limit)%nat ->
  exists m, merge (TreapVertex sa sl sr) l r args []
            = Ok (m, TreapVertex sa sl sr)
            /\ inorder m = (inorder l ++ inorder r)%list.
Proof.
  intros Hs Hl Hr Hd.
  destruct (merge_rec_returns recursion_limit sa sl sr l r args Hs Hl Hr Hd)
    as [m Hm].
  exists m. rewrite merge_unfold. split; [exact Hm|].
  eapply merge_rec_inorder; eauto.
Qed.

End MoreProperties.

(** X12.  An [ImplicitTreap] is true exactly when its root is not [None], which
    is exactly when [len] of it returns; the length is then never
    negative, and it is 0 for a root that is a false vertex: a treap that
    is true can be empty. *)
Theorem treap_is_true_iff_len_returns {T : Type} (t : ImplicitTreap.treap T) :
  ImplicitTreap.__bool__ t = negb (raises (ImplicitTreap.__len__ t))
  /\ (forall n, ImplicitTreap.__len__ t = Ok n -> 0 <= n)
  /\ (truth (ImplicitTreap._tree t) = false ->
      ImplicitTreap.__bool__ t = true ->
      ImplicitTreap.__len__ t = Ok 0).
Proof.
  destruct t as [[|a l r]]; cbn.
  - repeat split; try discriminate.
  - repeat split.
    + intros n E. inversion E. apply len_nonneg.
    + intros Hb _. unfold __len__. now rewrite Hb.
Qed.

(** ** The properties at work on vertices over ints *)


Lemma split_returns_all_or_nothing_witness :
  (truth absent = false /\ two_elements = two_elements)
  \/ (absent = two_elements /\ truth two_elements = false).
Proof.
  apply (split_returns_all_or_nothing two_elements 1 0 [] []
           absent two_elements two_elements).
  - reflexivity.
  - vm_compute. reflexivity.
Defined.

Lemma merge_of_split_returns_the_vertex_witness :
  merge absent absent two_elements [] [] = Ok (two_elements, absent).
Proof.
  apply (merge_of_split_returns_the_vertex absent two_elements 1 0 [] []
           absent two_elements two_elements).
  - reflexivity.
  - vm_compute. reflexivity.
  - reflexivity.
Defined.

Lemma split_raises_while_value_func_is_registered_witness :
  raises (split (leaf 5 3) 0 0 [] []) = true.
Proof.
  apply (split_raises_while_value_func_is_registered
           (attrs_with 5 3 1 [] [] [("value", value_func None)])
           absent absent 0 0 [] [] "value" None).
  - reflexivity.
  - reflexivity.
  - discriminate.
  - simpl. left. reflexivity.
Defined.

Lemma update_raises_while_value_func_is_registered_witness :
  raises (update (leaf 5 3) []) = true.
Proof.
  apply (update_raises_while_value_func_is_registered
           (attrs_with 5 3 1 [] [] [("value", value_func None)])
           absent absent [] "value" None).
  - reflexivity.
  - discriminate.
  - simpl. left. reflexivity.
Defined.

Lemma sum_min_registry_keyed : keyed_by_field sum_min_registry.
Proof. repeat constructor. Qed.

Lemma sum_min_registry_nodup : NoDup (map fst sum_min_registry).
Proof.
  repeat constructor; simpl; intuition discriminate.
Qed.

Lemma update_recomputes_size_and_fields_witness :
  exists a',
    stale_root_updated
    = TreapVertex a' (left stale_root) (right stale_root) /\
    _size a' = slot_len (left stale_root) + slot_len (right stale_root) + 1 /\
    forall f func, In (f, func_wrapper f func) sum_min_registry ->
      exists y, aggregate f func (left stale_root) (right stale_root) = Ok y
                /\ __getattr__ a' f = Ok y.
Proof.
  apply (update_recomputes_size_and_fields
           (attrs_with 5 9 3 [("sum", Some 100); ("mn", Some 100)] []
              sum_min_registry)
           (left stale_root) (right stale_root) stale_root_updated ["sum"]).
  - exact sum_min_registry_keyed.
  - exact sum_min_registry_nodup.
  - vm_compute. reflexivity.
  - reflexivity.
Defined.

Lemma update_twice_is_update_once_witness :
  update stale_root_updated ["mn"] = Ok stale_root_updated.
Proof.
  apply (update_twice_is_update_once
           (attrs_with 5 9 3 [("sum", Some 100); ("mn", Some 100)] []
              sum_min_registry)
           (left stale_root) (right stale_root) stale_root_updated
           ["sum"] ["mn"]).
  - exact sum_min_registry_keyed.
  - exact sum_min_registry_nodup.
  - vm_compute. reflexivity.
  - reflexivity.
Defined.

Lemma push_ignores_unregistered_fields_witness :
  push lazy_parent [("mn", Some 3)] = Ok lazy_parent.
Proof.
  apply (push_ignores_unregistered_fields
           (attrs_with 1 9 2 [("sum", Some 10)] lazy_sum_registry
              value_registry)
           (left lazy_parent) absent [("mn", Some 3)]).
  intros k [<- | []]. reflexivity.
Defined.

Lemma push_reaches_only_direct_children_witness :
  pushed lazy_parent lazy_parent_pushed.
Proof.
  apply (push_reaches_only_direct_children lazy_parent lazy_parent_pushed
           [("sum", Some 5)]).
  vm_compute. reflexivity.
Defined.

Lemma merge_concatenates_witness :
  exists m, merge absent (leaf 1 2) (leaf 2 1) [] [] = Ok (m, absent)
            /\ inorder m = (inorder (leaf 1 2) ++ inorder (leaf 2 1))%list.
Proof.
  apply (merge_concatenates
           {| value := None; _priority := 0; _size := 1; fields := [];
              __lazy_calls := [];
              __func_calls := [("value", value_func None)] |}
           PyNone PyNone (leaf 1 2) (leaf 2 1) []).
  - reflexivity.
  - reflexivity.
  - reflexivity.
  - apply Nat.ltb_lt. vm_compute. reflexivity.
Defined.
